(** * ME480FSM: rising-edge counter and duration timers

    A shallow embedding of [src/ME480FSM.cpp] / [src/ME480FSM.h] and the
    properties of its three classes.

    Each C++ class becomes a module holding a record with the class's fields
    (same names) and one function per member function.  A member function
    takes the object ([this]) and returns the object after the call.  The
    constructors are functions on the object's storage as well: they write
    the fields the C++ constructor assigns and leave the others as they
    were found, so that a field the constructor never assigns keeps whatever
    the storage held.

    Integers are [Z] with the C++ type's width written out: [int] is
    [int_bits] wide (16 on the AVR boards, 32 on the ARM ones), two's
    complement, and [unsigned long] is [ulong_bits] wide.  The clock
    functions [millis()] and [micros()] are external: the value a call
    returns is an argument of the function that makes the call. *)

From Stdlib Require Import ZArith Bool List Lia.
Import ListNotations.
Local Open Scope Z_scope.
Local Open Scope bool_scope.

(* ================================================================== *)
(** * Part 1: the program *)
(* ================================================================== *)

(** ** Machine integers *)

Section MachineIntegers.

(** Number of bits of the type. *)
Variable bits : Z.

(** A signed [bits]-bit integer after an arithmetic operation whose exact
    result is [z].  C++ does not define the result when [z] is out of the
    type's range; the two's complement machines the library runs on wrap
    around, and that is what is written here. *)
Definition wrap_signed (z : Z) : Z :=
  (z + 2 ^ (bits - 1)) mod 2 ^ bits - 2 ^ (bits - 1).

(** An unsigned [bits]-bit integer after an arithmetic operation whose
    exact result is [z]. *)
Definition wrap_unsigned (z : Z) : Z := z mod 2 ^ bits.

(** Largest and smallest values of the signed type. *)
Definition signed_max : Z := 2 ^ (bits - 1) - 1.
Definition signed_min : Z := - 2 ^ (bits - 1).

End MachineIntegers.

(** ** class RisingEdgeCounter *)

Module RisingEdgeCounter.

(** The fields of the class, public ones first, as in the header. *)
Record t : Type := mk {
  preset : Z;          (* long *)
  count : Z;           (* int *)
  CNT : bool;
  state_Waiting : bool;
  state_Up : bool;
  state_Down : bool;
  state_RST : bool;
  in_Up_Old : bool;
  in_Down_Old : bool
}.

(** One call of [update]: the three arguments. *)
Record inputs : Type := call {
  arg_in_Up : bool;
  arg_in_Down : bool;
  arg_RST : bool
}.

Section WithIntWidth.

(** Width of [int] on the target. *)
Variable int_bits : Z.

Definition INT_MAX : Z := signed_max int_bits.
Definition INT_MIN : Z := signed_min int_bits.

(** [count++] and [count--] on an [int]. *)
Definition int_incr (c : Z) : Z := wrap_signed int_bits (c + 1).
Definition int_decr (c : Z) : Z := wrap_signed int_bits (c - 1).

(** [RisingEdgeCounter::RisingEdgeCounter(long _preset)], run on the
    storage [this].  The body assigns eight of the nine fields; [CNT] is
    not among them. *)
Definition RisingEdgeCounter (this : t) (_preset : Z) : t :=
  {| preset := _preset;
     count := 0;
     CNT := CNT this;
     state_Waiting := true;
     state_Up := false;
     state_Down := false;
     state_RST := false;
     in_Up_Old := false;
     in_Down_Old := false |}.

(** [void RisingEdgeCounter::update(bool in_Up, bool in_Down, bool RST)].
    The local variables keep their names; a primed name is the field
    after the assignment of block 3. *)
Definition update (this : t) (in_Up in_Down RST : bool) : t :=
  (* Block 1 *)
  let upp := in_Up && negb (in_Up_Old this) in
  let dnp := in_Down && negb (in_Down_Old this) in
  (* Block 2 *)
  let waitToUp := state_Waiting this && upp && negb (dnp || RST) in
  let waitToDown := state_Waiting this && dnp && negb (upp || RST) in
  let waitToRST := state_Waiting this && RST in
  let waitToWait :=
    state_Waiting this && negb (waitToUp || waitToDown || waitToRST) in
  let upToWait := state_Up this in
  let upToRST := state_Up this && RST in
  let downToWait := state_Down this in
  let downToRST := state_Up this && RST in
  let RSTToWait := state_RST this && negb RST in
  let RSTToRST := state_RST this && negb RSTToWait in
  (* Block 3 *)
  let state_Waiting' := upToWait || downToWait || RSTToWait || waitToWait in
  let state_Up' := waitToUp in
  let state_Down' := waitToDown in
  let state_RST' := waitToRST || upToRST || downToRST || RSTToRST in
  (* Block 4 *)
  let count1 := if state_Up' then int_incr (count this) else count this in
  let count2 :=
    if state_Down'
    then (if count1 >? 0 then int_decr count1 else count1)
    else count1 in
  let count3 := if state_RST' then 0 else count2 in
  {| preset := preset this;
     count := count3;
     CNT := (count3 >=? preset this);
     state_Waiting := state_Waiting';
     state_Up := state_Up';
     state_Down := state_Down';
     state_RST := state_RST';
     in_Up_Old := in_Up;
     in_Down_Old := in_Down |}.

(** One call, with its arguments packed. *)
Definition step (this : t) (i : inputs) : t :=
  update this (arg_in_Up i) (arg_in_Down i) (arg_RST i).

(** A sequence of calls of [update] on the same object, first call
    first. *)
Definition run (calls : list inputs) (this : t) : t :=
  fold_left step calls this.

(** The states a counter built with [_preset] can be in: the constructed
    object after any sequence of calls. *)
Definition reachable (_preset : Z) (s : t) : Prop :=
  exists (storage : t) (calls : list inputs),
    s = run calls (RisingEdgeCounter storage _preset).

End WithIntWidth.

(** The number of mode flags that are set. *)
Definition flags_set (s : t) : nat :=
  (if state_Waiting s then 1 else 0) + (if state_Up s then 1 else 0)
  + (if state_Down s then 1 else 0) + (if state_RST s then 1 else 0).

(** The four modes, each as "this flag and no other". *)
Definition mode_Waiting (s : t) : bool :=
  state_Waiting s && negb (state_Up s) && negb (state_Down s)
  && negb (state_RST s).
Definition mode_CountingUp (s : t) : bool :=
  negb (state_Waiting s) && state_Up s && negb (state_Down s)
  && negb (state_RST s).
Definition mode_CountingDown (s : t) : bool :=
  negb (state_Waiting s) && negb (state_Up s) && state_Down s
  && negb (state_RST s).
Definition mode_Resetting (s : t) : bool :=
  negb (state_Waiting s) && negb (state_Up s) && negb (state_Down s)
  && state_RST s.

End RisingEdgeCounter.

(** ** class FSMTimer *)

Module FSMTimer.

Record t : Type := mk {
  duration : Z;        (* unsigned long *)
  elapsed : Z;         (* unsigned long *)
  TMR : bool;
  startTime : Z;       (* unsigned long *)
  state_Waiting : bool;
  state_Timing : bool
}.

Section WithLongWidth.

(** Width of [unsigned long] on the target. *)
Variable ulong_bits : Z.

(** [FSMTimer::FSMTimer(unsigned long _duration)], run on the storage
    [this]; [millis] is the value the call of [millis()] returns.  [TMR]
    is not assigned. *)
Definition FSMTimer (this : t) (_duration : Z) (millis : Z) : t :=
  {| duration := _duration;
     elapsed := 0;
     TMR := TMR this;
     startTime := millis;
     state_Waiting := true;
     state_Timing := false |}.

(** [void FSMTimer::update(bool enable)]; [millis] is the value the call
    of [millis()] in block 4 returns. *)
Definition update (this : t) (enable : bool) (millis : Z) : t :=
  (* Block 2 *)
  let waitToTime := state_Waiting this && enable in
  let waitToWait := state_Waiting this && negb enable in
  let timeToWait := state_Timing this && negb enable in
  let timeToTime := state_Timing this && enable in
  (* Block 3 *)
  let state_Waiting' := timeToWait || waitToWait in
  let state_Timing' := waitToTime || timeToTime in
  (* Block 4 *)
  let curTime := millis in
  let startTime' := if state_Waiting' then curTime else startTime this in
  let elapsed' := wrap_unsigned ulong_bits (curTime - startTime') in
  {| duration := duration this;
     elapsed := elapsed';
     TMR := (elapsed' >=? duration this);
     startTime := startTime';
     state_Waiting := state_Waiting';
     state_Timing := state_Timing' |}.

(** A sequence of calls, each with its argument and the clock reading it
    sees. *)
Definition run (calls : list (bool * Z)) (this : t) : t :=
  fold_left (fun s c => update s (fst c) (snd c)) calls this.

End WithLongWidth.

End FSMTimer.

(** ** class FSMFastTimer *)

Module FSMFastTimer.

Record t : Type := mk {
  duration : Z;        (* unsigned long *)
  elapsed : Z;         (* unsigned long *)
  TMR : bool;
  startTime : Z;       (* unsigned long *)
  state_Waiting : bool;
  state_Timing : bool
}.

Section WithLongWidth.

Variable ulong_bits : Z.

(** [FSMFastTimer::FSMFastTimer(unsigned long _duration)], run on the
    storage [this]; [micros] is the value the call of [micros()]
    returns.  [TMR] is not assigned. *)
Definition FSMFastTimer (this : t) (_duration : Z) (micros : Z) : t :=
  {| duration := _duration;
     elapsed := 0;
     TMR := TMR this;
     startTime := micros;
     state_Waiting := true;
     state_Timing := false |}.

(** [void FSMFastTimer::update(bool enable)]; [micros] is the value the
    call of [micros()] in block 4 returns. *)
Definition update (this : t) (enable : bool) (micros : Z) : t :=
  (* Block 2 *)
  let waitToTime := state_Waiting this && enable in
  let waitToWait := state_Waiting this && negb enable in
  let timeToWait := state_Timing this && negb enable in
  let timeToTime := state_Timing this && enable in
  (* Block 3 *)
  let state_Waiting' := timeToWait || waitToWait in
  let state_Timing' := waitToTime || timeToTime in
  (* Block 4 *)
  let curTime := micros in
  let startTime' := if state_Waiting' then curTime else startTime this in
  let elapsed' := wrap_unsigned ulong_bits (curTime - startTime') in
  {| duration := duration this;
     elapsed := elapsed';
     TMR := (elapsed' >=? duration this);
     startTime := startTime';
     state_Waiting := state_Waiting';
     state_Timing := state_Timing' |}.

Definition run (calls : list (bool * Z)) (this : t) : t :=
  fold_left (fun s c => update s (fst c) (snd c)) calls this.

End WithLongWidth.

End FSMFastTimer.

(** ** Input sequences used in the statements *)

Module Scenario.
Import RisingEdgeCounter.

(** [n] presses of the increment input: each press is a call with
    [in_Up] true followed by a call with [in_Up] false; the other two
    inputs are false. *)
Fixpoint pulses (n : nat) : list inputs :=
  match n with
  | O => []
  | S k => call true false false :: call false false false :: pulses k
  end.

(** Two presses of the increment input, each released, then one press of
    the decrement input: the counter is in its CountingDown state with
    [count = 1]. *)
Definition up_up_down : list inputs :=
  [ call true false false; call false false false;
    call true false false; call false false false;
    call false true false ].

(** An object's storage before the constructor runs, here with every
    byte zero. *)
Definition zeroed : t := mk 0 0 false false false false false false false.

(** Is [count] below [INT_MAX] before each of the [calls] made from
    [s]? *)
Fixpoint below_INT_MAX (int_bits : Z) (calls : list inputs) (s : t) : bool :=
  match calls with
  | [] => true
  | i :: rest =>
      (count s <? INT_MAX int_bits)
      && below_INT_MAX int_bits rest (step int_bits s i)
  end.

(** The calls of a timer that is never enabled: one call with [enable]
    false per clock reading. *)
Definition disabled (readings : list Z) : list (bool * Z) :=
  map (fun r => (false, r)) readings.

(** Storage of the two timers before the constructor runs, every byte
    zero. *)
Definition zeroed_timer : FSMTimer.t :=
  FSMTimer.mk 0 0 false 0 false false.
Definition zeroed_fast_timer : FSMFastTimer.t :=
  FSMFastTimer.mk 0 0 false 0 false false.

End Scenario.

(** ** Patterns of calls and views of states *)

Module Patterns.
Import RisingEdgeCounter.

(** One press of the increment input and one of the decrement input: the
    input goes true for one call and false for the next; the other inputs
    are false. *)
Definition up_press : list inputs :=
  [ call true false false; call false false false ].
Definition down_press : list inputs :=
  [ call false true false; call false false false ].

(** The combinations of mode flags and saved inputs that occur: some flag is
    set; of [state_Up], [state_Down] and [state_RST] at most one is set; a
    counting flag is set only together with the saved value of its input. *)
Definition flags_ok (s : t) : bool :=
  (state_Waiting s || state_Up s || state_Down s || state_RST s)
  && negb (state_Up s && state_Down s)
  && negb (state_Up s && state_RST s)
  && negb (state_Down s && state_RST s)
  && implb (state_Up s) (in_Up_Old s)
  && implb (state_Down s) (in_Down_Old s).

(** The calls of a timer that stays enabled: one call with [enable] true
    per clock reading. *)
Definition enabled (readings : list Z) : list (bool * Z) :=
  map (fun r => (true, r)) readings.

(** An [FSMTimer] object read as an [FSMFastTimer] object with the same
    field values, and back. *)
Definition as_fast (a : FSMTimer.t) : FSMFastTimer.t :=
  FSMFastTimer.mk (FSMTimer.duration a) (FSMTimer.elapsed a) (FSMTimer.TMR a)
                  (FSMTimer.startTime a) (FSMTimer.state_Waiting a)
                  (FSMTimer.state_Timing a).
Definition of_fast (b : FSMFastTimer.t) : FSMTimer.t :=
  FSMTimer.mk (FSMFastTimer.duration b) (FSMFastTimer.elapsed b)
              (FSMFastTimer.TMR b) (FSMFastTimer.startTime b)
              (FSMFastTimer.state_Waiting b) (FSMFastTimer.state_Timing b).

End Patterns.

(* ================================================================== *)
(** * Part 2: properties *)
(* ================================================================== *)

(** ** Machine integers *)

Lemma pow2_split (bits : Z) :
  0 < bits -> 2 ^ bits = 2 * 2 ^ (bits - 1).
Proof.
  intros Hb. rewrite <- Z.pow_succ_r by lia. f_equal. lia.
Qed.

Lemma wrap_signed_in_range (bits z : Z) :
  signed_min bits <= z <= signed_max bits -> wrap_signed bits z = z.
Proof.
  unfold signed_min, signed_max, wrap_signed. intros Hz.
  destruct (Z_lt_le_dec 0 bits) as [Hb | Hb].
  - rewrite (pow2_split bits Hb).
    assert (0 < 2 ^ (bits - 1)) by (apply Z.pow_pos_nonneg; lia).
    rewrite Z.mod_small; lia.
  - exfalso.
    assert (2 ^ (bits - 1) = 0) by (apply Z.pow_neg_r; lia).
    lia.
Qed.

Lemma signed_max_16 (bits : Z) : 16 <= bits -> 32767 <= signed_max bits.
Proof.
  intros Hb. unfold signed_max.
  assert (2 ^ 15 <= 2 ^ (bits - 1)) by (apply Z.pow_le_mono_r; lia).
  change (2 ^ 15) with 32768 in *. lia.
Qed.

Lemma wrap_signed_range (bits z : Z) :
  0 < bits -> signed_min bits <= wrap_signed bits z <= signed_max bits.
Proof.
  intros Hb. unfold signed_min, signed_max, wrap_signed.
  assert (Hpos : 0 < 2 ^ (bits - 1)) by (apply Z.pow_pos_nonneg; lia).
  pose proof (Z.mod_pos_bound (z + 2 ^ (bits - 1)) (2 ^ bits)) as Hm.
  rewrite (pow2_split bits Hb) in *. lia.
Qed.

(** ** RisingEdgeCounter *)

Section CounterFacts.
Import RisingEdgeCounter.

Variable int_bits : Z.

Local Abbreviation update := (update int_bits).
Local Abbreviation step := (step int_bits).
Local Abbreviation run := (run int_bits).
Local Abbreviation INT_MAX := (INT_MAX int_bits).

Lemma INT_MIN_nonpos : INT_MIN int_bits <= 0.
Proof.
  unfold RisingEdgeCounter.INT_MIN, signed_min.
  assert (0 <= 2 ^ (int_bits - 1)) by (apply Z.pow_nonneg; lia). lia.
Qed.

Lemma int_incr_exact (c : Z) :
  INT_MIN int_bits <= c < INT_MAX -> int_incr int_bits c = c + 1.
Proof.
  intros Hc. unfold int_incr. apply wrap_signed_in_range.
  unfold RisingEdgeCounter.INT_MAX, RisingEdgeCounter.INT_MIN,
    signed_max, signed_min in *. lia.
Qed.

Lemma int_decr_exact (c : Z) :
  0 < c <= INT_MAX -> int_decr int_bits c = c - 1.
Proof.
  intros Hc. unfold int_decr. apply wrap_signed_in_range.
  unfold RisingEdgeCounter.INT_MAX, signed_max, signed_min in *. lia.
Qed.

Lemma run_nil (s : t) : run [] s = s.
Proof. reflexivity. Qed.

Lemma run_cons (i : inputs) (calls : list inputs) (s : t) :
  run (i :: calls) s = run calls (step s i).
Proof. reflexivity. Qed.

Lemma run_snoc (calls : list inputs) (i : inputs) (s : t) :
  run (calls ++ [i]) s = step (run calls s) i.
Proof. unfold RisingEdgeCounter.run. now rewrite fold_left_app. Qed.

Lemma run_app (xs ys : list inputs) (s : t) :
  run (xs ++ ys) s = run ys (run xs s).
Proof. unfold RisingEdgeCounter.run. now rewrite fold_left_app. Qed.

(** [update] never writes [preset]. *)
Lemma update_preset (s : t) (a b c : bool) :
  preset (update s a b c) = preset s.
Proof. reflexivity. Qed.

Lemma run_preset (calls : list inputs) (s : t) :
  preset (run calls s) = preset s.
Proof.
  revert s. induction calls as [| i calls IH]; intros s; [reflexivity |].
  rewrite run_cons, IH. reflexivity.
Qed.

(** *** The mode flags *)

(** Every call leaves at least one mode flag set. *)
Lemma update_keeps_a_flag (s : t) (a b c : bool) :
  (1 <= flags_set s)%nat -> (1 <= flags_set (update s a b c))%nat.
Proof.
  destruct s as [p n cnt w u d r uo do]. unfold flags_set. simpl.
  destruct w, u, d, r, a, b, c, uo, do; simpl; lia.
Qed.

Lemma reachable_has_a_flag (p : Z) (s : t) :
  reachable int_bits p s -> (1 <= flags_set s)%nat.
Proof.
  intros (storage & calls & ->).
  induction calls as [| i calls IH] using rev_ind.
  - unfold flags_set. simpl. lia.
  - rewrite run_snoc. apply update_keeps_a_flag, IH.
Qed.

(** A call keeps "exactly one flag" unless it resets a counter whose
    [state_Up] flag is set. *)
Lemma update_keeps_one_flag (s : t) (a b c : bool) :
  flags_set s = 1%nat -> state_Up s && c = false ->
  flags_set (update s a b c) = 1%nat.
Proof.
  destruct s as [p n cnt w u d r uo do]. unfold flags_set. simpl.
  destruct w, u, d, r, a, b, c, uo, do; simpl; intros; lia || discriminate.
Qed.

(** The two counting flags are never set together. *)
Lemma update_Up_Down_exclusive (s : t) (a b c : bool) :
  state_Up (update s a b c) && state_Down (update s a b c) = false.
Proof.
  destruct s as [p n cnt w u d r uo do]. simpl.
  destruct w, a, b, c, uo, do; reflexivity.
Qed.

(** *** The transitions *)

(** From Waiting: a reset wins; otherwise a rising edge on exactly one of the
    two inputs starts a count; otherwise the counter stays Waiting. *)
Lemma transitions_from_Waiting (s : t) (in_Up in_Down RST : bool) :
  mode_Waiting s = true ->
  let upp := in_Up && negb (in_Up_Old s) in
  let dnp := in_Down && negb (in_Down_Old s) in
  let s' := update s in_Up in_Down RST in
  (RST = true -> mode_Resetting s' = true)
  /\ (RST = false -> upp = true -> dnp = false -> mode_CountingUp s' = true)
  /\ (RST = false -> upp = false -> dnp = true -> mode_CountingDown s' = true)
  /\ (RST = false -> upp = dnp -> mode_Waiting s' = true).
Proof.
  destruct s as [p n cnt w u d r uo do]. unfold mode_Waiting. simpl.
  destruct w, u, d, r; simpl; intros Hm; try discriminate Hm.
  unfold mode_Resetting, mode_CountingUp, mode_CountingDown, mode_Waiting.
  destruct in_Up, in_Down, RST, uo, do; simpl; repeat split;
    intros; congruence.
Qed.

(** From CountingUp without a reset: back to Waiting. *)
Lemma transition_from_CountingUp (s : t) (in_Up in_Down : bool) :
  mode_CountingUp s = true ->
  mode_Waiting (update s in_Up in_Down false) = true.
Proof.
  destruct s as [p n cnt w u d r uo do]. unfold mode_CountingUp. simpl.
  destruct w, u, d, r; simpl; intros Hm; try discriminate Hm.
  destruct in_Up, in_Down, uo, do; reflexivity.
Qed.

(** From Resetting: stay while [RST] is true, back to Waiting when it is
    false. *)
Lemma transitions_from_Resetting (s : t) (in_Up in_Down : bool) :
  mode_Resetting s = true ->
  mode_Resetting (update s in_Up in_Down true) = true
  /\ mode_Waiting (update s in_Up in_Down false) = true.
Proof.
  destruct s as [p n cnt w u d r uo do]. unfold mode_Resetting. simpl.
  destruct w, u, d, r; simpl; intros Hm; try discriminate Hm.
  destruct in_Up, in_Down, uo, do; split; reflexivity.
Qed.

(** C1 (the code departs from the claim).  The claim: exactly one of the
    four mode flags is set in every reachable state.  The code: a freshly
    built counter that sees a rising edge on [in_Up] and then a call with
    [RST] true has both [state_Waiting] and [state_RST] set, because
    [upToWait] is [state_Up] whatever [RST] is while [upToRST] fires as
    well. *)
Theorem C1_reset_in_CountingUp_sets_two_flags
    (storage : t) (p : Z) (in_Up in_Down : bool) :
  let s := run [call true false false; call in_Up in_Down true]
               (RisingEdgeCounter storage p) in
  state_Waiting s = true /\ state_RST s = true /\ flags_set s = 2%nat.
Proof.
  destruct in_Up, in_Down; repeat split.
Qed.

(** *** Reset *)

(** A call with [RST] true clears [count] whenever one of [state_Waiting],
    [state_Up], [state_RST] is set. *)
Lemma reset_clears_count (s : t) (a b : bool) :
  state_Waiting s || state_Up s || state_RST s = true ->
  count (update s a b true) = 0.
Proof.
  destruct s as [p n cnt w u d r uo do]. simpl.
  destruct w, u, r; simpl; intros H; try discriminate H;
    destruct d, a, b, uo, do; reflexivity.
Qed.

(** The second of two consecutive calls with [RST] true always clears
    [count]. *)
Lemma second_reset_clears_count (s : t) (a b a' b' : bool) :
  (1 <= flags_set s)%nat ->
  count (update (update s a b true) a' b' true) = 0.
Proof.
  intros Hs. apply reset_clears_count.
  destruct s as [p n cnt w u d r uo do]. unfold flags_set in Hs.
  simpl in *.
  destruct w, u, d, r; simpl in *; try lia; destruct a, b, uo, do; reflexivity.
Qed.

(** From CountingDown, a call with [RST] true leaves [count] as it was. *)
Lemma CountingDown_reset_keeps_count (s : t) (a b : bool) :
  mode_CountingDown s = true -> count (update s a b true) = count s.
Proof.
  destruct s as [p n cnt w u d r uo do]. unfold mode_CountingDown. simpl.
  destruct w, u, d, r; simpl; intros H; try discriminate H.
  destruct a, b, uo, do; reflexivity.
Qed.

(** C2 (the code departs from the claim).  The claim: from CountingDown a
    call with [RST] true leads to Resetting and clears [count], and a call
    with [RST] false leads to Waiting.  The code: from CountingDown a call
    with [RST] true leads to Waiting, [state_RST] stays clear and [count]
    keeps its value, because [downToRST] tests [state_Up]; the part about
    [RST] false holds. *)
Theorem C2_reset_in_CountingDown_goes_to_Waiting
    (s : t) (in_Up in_Down : bool) :
  mode_CountingDown s = true ->
  mode_Waiting (update s in_Up in_Down true) = true
  /\ state_RST (update s in_Up in_Down true) = false
  /\ count (update s in_Up in_Down true) = count s
  /\ mode_Waiting (update s in_Up in_Down false) = true.
Proof.
  destruct s as [p n cnt w u d r uo do]. unfold mode_CountingDown. simpl.
  destruct w, u, d, r; simpl; intros H; try discriminate H.
  destruct in_Up, in_Down, uo, do; repeat split.
Qed.

(** C6 (the code departs from the claim).  The claim: from any reachable
    state, every call with [RST] true leaves [count = 0].  The code: after
    two presses of the increment input and one of the decrement input the
    counter is in CountingDown with [count = 1], and a call with [RST]
    true made then leaves [count = 1]. *)
Theorem C6_reset_in_CountingDown_keeps_count
    (storage : t) (p : Z) (in_Up in_Down : bool) :
  16 <= int_bits ->
  let s := run Scenario.up_up_down (RisingEdgeCounter storage p) in
  mode_CountingDown s = true
  /\ count s = 1
  /\ count (update s in_Up in_Down true) = 1.
Proof.
  intros Hb s.
  assert (Hmax : 32767 <= INT_MAX) by now apply signed_max_16.
  pose proof INT_MIN_nonpos as Hmin.
  assert (H1 : int_incr int_bits 0 = 1) by (apply int_incr_exact; lia).
  assert (H2 : int_incr int_bits 1 = 2) by (apply int_incr_exact; lia).
  assert (H3 : int_decr int_bits 2 = 1) by (apply int_decr_exact; lia).
  assert (Hs : mode_CountingDown s = true /\ count s = 1).
  { subst s. unfold Scenario.up_up_down, RisingEdgeCounter.run. simpl.
    rewrite H1, H2. simpl. rewrite H3. split; reflexivity. }
  destruct Hs as [Hm Hc]. split; [exact Hm |]. split; [exact Hc |].
  rewrite (CountingDown_reset_keeps_count s in_Up in_Down Hm). exact Hc.
Qed.

(** *** Simultaneous edges *)

(** C5.  A call that sees a rising edge on both [in_Up] and [in_Down]
    while [RST] is false leaves [count] as it was and clears the Up, Down
    and RST flags; a counter that was Waiting is Waiting (and in no other
    mode) after the call. *)
Theorem C5_simultaneous_edges_cancel (s : t) :
  in_Up_Old s = false -> in_Down_Old s = false ->
  let s' := update s true true false in
  count s' = count s
  /\ state_Up s' = false /\ state_Down s' = false /\ state_RST s' = false
  /\ (state_Waiting s = true -> mode_Waiting s' = true).
Proof.
  destruct s as [p n cnt w u d r uo do]. simpl. intros -> ->.
  unfold mode_Waiting. simpl.
  destruct w, u, d, r; simpl; repeat split; intros H; discriminate H.
Qed.

(** *** The threshold flag *)

(** C7.  After every call of [update], for every preset and every
    sequence of calls before it, [CNT] is true exactly when
    [count >= preset] and false exactly when [count < preset]. *)
Theorem C7_CNT_is_threshold_test
    (storage : t) (p : Z) (calls : list inputs) (i : inputs) :
  let s := run (calls ++ [i]) (RisingEdgeCounter storage p) in
  (CNT s = true <-> p <= count s) /\ (CNT s = false <-> count s < p).
Proof.
  intros s. subst s. rewrite run_snoc.
  set (s0 := run calls (RisingEdgeCounter storage p)).
  assert (Hp : preset s0 = p) by (unfold s0; now rewrite run_preset).
  unfold RisingEdgeCounter.step, RisingEdgeCounter.update.
  cbv beta zeta. cbn [CNT count]. rewrite Hp.
  match goal with |- context [?c >=? p] => generalize c end.
  intros c. rewrite Z.geb_leb. split.
  - apply Z.leb_le.
  - apply Z.leb_gt.
Qed.

(** *** The range of [count] *)

(** One call made while [count] is in [0, INT_MAX) leaves it in
    [0, INT_MAX]. *)
Lemma update_count_range (s : t) (a b c : bool) :
  0 <= count s < INT_MAX ->
  0 <= count (update s a b c) <= INT_MAX.
Proof.
  intros Hc.
  assert (Hi : int_incr int_bits (count s) = count s + 1)
    by (apply int_incr_exact; pose proof INT_MIN_nonpos; lia).
  destruct s as [p n cnt w u d r uo do]. simpl in *.
  destruct w, u, d, r, a, b, c, uo, do; simpl; rewrite ?Hi; try lia;
    destruct (Z.gtb_spec n 0); try lia;
    rewrite int_decr_exact; lia.
Qed.

Lemma run_count_nonneg (calls : list inputs) (s : t) :
  0 <= count s ->
  Scenario.below_INT_MAX int_bits calls s = true ->
  0 <= count (run calls s).
Proof.
  revert s. induction calls as [| i calls IH]; intros s Hs Hb.
  - exact Hs.
  - simpl in Hb. apply andb_prop in Hb. destruct Hb as [Hlt Hb].
    apply Z.ltb_lt in Hlt. rewrite run_cons. apply IH; [| exact Hb].
    apply update_count_range. lia.
Qed.

(** A sequence of [n] calls raises [count] by at most [n]; as long as that
    stays within [INT_MAX], [count] stays non-negative. *)
Lemma run_count_bounded (calls : list inputs) (s : t) :
  0 <= count s ->
  count s + Z.of_nat (length calls) <= INT_MAX ->
  0 <= count (run calls s) <= count s + Z.of_nat (length calls).
Proof.
  revert s. induction calls as [| i calls IH]; intros s Hs Hlen.
  - simpl. lia.
  - rewrite run_cons. cbn [length] in *.
    assert (Hstep : 0 <= count (step s i) <= count s + 1).
    { unfold RisingEdgeCounter.step.
      assert (Hi : int_incr int_bits (count s) = count s + 1)
        by (apply int_incr_exact; pose proof INT_MIN_nonpos; lia).
      destruct s as [p n cnt w u d r uo do], i as [a b c]. simpl in *.
      destruct w, u, d, r, a, b, c, uo, do; simpl; rewrite ?Hi; try lia;
        destruct (Z.gtb_spec n 0); try lia;
        rewrite int_decr_exact; lia. }
    specialize (IH (step s i)). lia.
Qed.

(** Decrementing at 0 changes nothing: a Waiting counter with [count = 0]
    that sees a rising edge on [in_Down] enters CountingDown and keeps
    [count = 0]. *)
Lemma decrement_at_zero (s : t) :
  mode_Waiting s = true -> in_Down_Old s = false -> count s = 0 ->
  mode_CountingDown (update s false true false) = true
  /\ count (update s false true false) = 0.
Proof.
  destruct s as [p n cnt w u d r uo do]. unfold mode_Waiting. simpl.
  intros Hm -> ->.
  destruct w, u, d, r; try discriminate Hm. split; reflexivity.
Qed.

(** [count] is 0 after construction and stays non-negative through every
    sequence of calls, with any inputs, in which it is below [INT_MAX]
    before each call. *)
Lemma count_nonneg_below_INT_MAX
    (storage : t) (p : Z) (calls : list inputs) :
  Scenario.below_INT_MAX int_bits calls (RisingEdgeCounter storage p) = true ->
  count (RisingEdgeCounter storage p) = 0
  /\ 0 <= count (run calls (RisingEdgeCounter storage p)).
Proof.
  intros Hb. split; [reflexivity |].
  apply run_count_nonneg; [simpl; lia | exact Hb].
Qed.

(** *** Rising edges on the increment input *)

(** [count] is always a value of the type [int]. *)
Lemma update_count_is_int (s : t) (a b c : bool) :
  0 < int_bits ->
  INT_MIN int_bits <= count s <= INT_MAX ->
  INT_MIN int_bits <= count (update s a b c) <= INT_MAX.
Proof.
  intros Hb Hc.
  pose proof INT_MIN_nonpos as Hmin.
  assert (Hmax : 0 <= INT_MAX).
  { unfold RisingEdgeCounter.INT_MAX, signed_max.
    assert (0 < 2 ^ (int_bits - 1)) by (apply Z.pow_pos_nonneg; lia). lia. }
  pose proof (wrap_signed_range int_bits (count s + 1) Hb) as Hi.
  pose proof (wrap_signed_range int_bits (count s - 1) Hb) as Hd.
  pose proof (wrap_signed_range int_bits
                (wrap_signed int_bits (count s + 1) - 1) Hb) as Hid.
  fold (INT_MIN int_bits) in Hi, Hd, Hid. fold INT_MAX in Hi, Hd, Hid.
  destruct s as [p n cnt w u d r uo do]. simpl in *.
  unfold int_incr, int_decr.
  destruct w, u, d, r, a, b, c, uo, do; simpl; try lia;
    match goal with
    | |- context [if ?x >? 0 then _ else _] => destruct (x >? 0); lia
    end.
Qed.

Lemma reachable_count_is_int (p : Z) (s : t) :
  0 < int_bits -> reachable int_bits p s ->
  INT_MIN int_bits <= count s <= INT_MAX.
Proof.
  intros Hb (storage & calls & ->).
  induction calls as [| i calls IH] using rev_ind.
  - simpl. pose proof INT_MIN_nonpos.
    unfold RisingEdgeCounter.INT_MAX, signed_max.
    assert (0 < 2 ^ (int_bits - 1)) by (apply Z.pow_pos_nonneg; lia). lia.
  - rewrite run_snoc. now apply update_count_is_int.
Qed.

(** A call with all three inputs false counts nothing and leaves the
    counter Waiting, with both saved inputs false, whatever mode flags were
    set before. *)
Lemma low_call_settles (s : t) :
  (1 <= flags_set s)%nat ->
  let s' := update s false false false in
  mode_Waiting s' = true /\ in_Up_Old s' = false /\ in_Down_Old s' = false
  /\ count s' = count s.
Proof.
  destruct s as [p n cnt w u d r uo do]. unfold flags_set, mode_Waiting.
  simpl. intros Hf.
  destruct w, u, d, r; simpl in *; try lia; repeat split.
Qed.

(** A Waiting counter that sees a rising edge on [in_Up] alone counts it and
    enters CountingUp, provided [count] is below [INT_MAX]. *)
Lemma rising_edge_counts (s : t) :
  mode_Waiting s = true -> in_Up_Old s = false ->
  INT_MIN int_bits <= count s < INT_MAX ->
  count (update s true false false) = count s + 1
  /\ mode_CountingUp (update s true false false) = true
  /\ in_Up_Old (update s true false false) = true.
Proof.
  intros Hm Ho Hc.
  assert (Hi : int_incr int_bits (count s) = count s + 1)
    by now apply int_incr_exact.
  destruct s as [p n cnt w u d r uo do]. unfold mode_Waiting in Hm.
  simpl in *. subst uo.
  destruct w, u, d, r; try discriminate Hm. simpl.
  repeat split. exact Hi.
Qed.

(** While [in_Up] stays true, and the other two inputs false, nothing is
    counted, in whatever mode the counter is. *)
Lemma held_input_keeps_count (m : nat) (s : t) :
  in_Up_Old s = true ->
  count (run (repeat (call true false false) m) s) = count s.
Proof.
  revert s. induction m as [| m IH]; intros s Ho; [reflexivity |].
  cbn [repeat]. rewrite run_cons, IH by reflexivity.
  destruct s as [p n cnt w u d r uo do]. simpl in *. subst uo.
  destruct w, u, d, r, do; reflexivity.
Qed.

(** Calls with all three inputs false keep a Waiting counter Waiting and
    count nothing. *)
Lemma idle_keeps_waiting (k : nat) (s : t) :
  mode_Waiting s = true ->
  mode_Waiting (run (repeat (call false false false) k) s) = true
  /\ count (run (repeat (call false false false) k) s) = count s
  /\ (in_Up_Old s = false ->
      in_Up_Old (run (repeat (call false false false) k) s) = false).
Proof.
  revert s. induction k as [| k IH]; intros s Hm; [now repeat split |].
  cbn [repeat]. rewrite run_cons.
  assert (Hstep : mode_Waiting (step s (call false false false)) = true
                  /\ count (step s (call false false false)) = count s).
  { destruct s as [p n cnt w u d r uo do]. unfold mode_Waiting in *.
    simpl in *. destruct w, u, d, r; try discriminate Hm.
    split; reflexivity. }
  destruct Hstep as [Hm' Hc'].
  destruct (IH _ Hm') as (H1 & H2 & H3).
  repeat split; [exact H1 | now rewrite H2 | intros _; now apply H3].
Qed.

(** Below [INT_MAX] a rising edge of the increment input, the other two
    inputs being false, counts once.  First part: on a counter that has seen
    [k] calls with all inputs false since construction, the call with the
    increment input true raises [count] by 1 and the [m] calls after it with
    the increment input still true raise it by 0.  Second part: the same on
    a counter with any [history] of calls, the edge being the call with all
    inputs false followed by the call with the increment input true, when
    [count] is below [INT_MAX]. *)
Lemma rising_edge_counts_once_below_INT_MAX
    (storage : t) (p : Z) (k m : nat) (history : list inputs) :
  16 <= int_bits ->
  (let idle := run (repeat (call false false false) k)
                   (RisingEdgeCounter storage p) in
   let edge := update idle true false false in
   count edge = count idle + 1
   /\ count (run (repeat (call true false false) m) edge) = count edge)
  /\
  (let low := update (run history (RisingEdgeCounter storage p))
                     false false false in
   let edge := update low true false false in
   count low < INT_MAX ->
   count edge = count low + 1
   /\ count (run (repeat (call true false false) m) edge) = count edge).
Proof.
  intros Hb.
  assert (Hmax : 32767 <= INT_MAX) by now apply signed_max_16.
  pose proof INT_MIN_nonpos as Hmin.
  split.
  - intros idle edge.
    destruct (idle_keeps_waiting k (RisingEdgeCounter storage p) eq_refl)
      as (Hm & Hc & Ho).
    fold idle in Hm, Hc, Ho. simpl in Hc. specialize (Ho eq_refl).
    split.
    + apply rising_edge_counts; [exact Hm | exact Ho | lia].
    + apply held_input_keeps_count. reflexivity.
  - intros low edge Hlt.
    set (s := run history (RisingEdgeCounter storage p)) in *.
    assert (Hr : reachable int_bits p s) by (exists storage, history; reflexivity).
    destruct (low_call_settles s (reachable_has_a_flag p s Hr))
      as (Hm & Ho & _ & Hc).
    fold low in Hm, Ho, Hc.
    assert (Hint : INT_MIN int_bits <= count low <= INT_MAX).
    { rewrite Hc. apply (reachable_count_is_int p s); [lia | exact Hr]. }
    split.
    + apply rising_edge_counts; [exact Hm | exact Ho | lia].
    + apply held_input_keeps_count. reflexivity.
Qed.

(** *** Reaching [INT_MAX] *)

(** [n] presses of the increment input on a Waiting counter raise [count]
    by [n], as long as that stays within [INT_MAX]. *)
Lemma pulses_count (n : nat) (s : t) :
  mode_Waiting s = true -> in_Up_Old s = false ->
  0 <= count s -> count s + Z.of_nat n <= INT_MAX ->
  mode_Waiting (run (Scenario.pulses n) s) = true
  /\ in_Up_Old (run (Scenario.pulses n) s) = false
  /\ count (run (Scenario.pulses n) s) = count s + Z.of_nat n.
Proof.
  revert s. induction n as [| n IH]; intros s Hm Ho Hc Hn.
  - simpl. repeat split; try assumption. lia.
  - cbn [Scenario.pulses]. rewrite !run_cons.
    set (s2 := step (step s (call true false false))
                    (call false false false)).
    assert (H2 : mode_Waiting s2 = true /\ in_Up_Old s2 = false
                 /\ count s2 = count s + 1).
    { assert (Hi : int_incr int_bits (count s) = count s + 1)
        by (apply int_incr_exact; pose proof INT_MIN_nonpos; lia).
      subst s2. destruct s as [p c cnt w u d r uo do].
      unfold mode_Waiting in *. simpl in *. subst uo.
      destruct w, u, d, r; try discriminate Hm.
      simpl. repeat split. exact Hi. }
    destruct H2 as (Hm2 & Ho2 & Hc2).
    destruct (IH s2 Hm2 Ho2) as (R1 & R2 & R3); [lia | lia |].
    repeat split; [exact R1 | exact R2 | lia].
Qed.

(** After [INT_MAX] presses of the increment input, the next rising edge
    takes [count] from [INT_MAX] to [INT_MIN]: on every width of [int]. *)
Lemma overflow_reachable (storage : t) (p : Z) :
  0 < int_bits ->
  count (run (Scenario.pulses (Z.to_nat INT_MAX) ++ [call true false false])
             (RisingEdgeCounter storage p))
  = INT_MIN int_bits.
Proof.
  intros Hb.
  assert (Hpow : 0 < 2 ^ (int_bits - 1)) by (apply Z.pow_pos_nonneg; lia).
  assert (Hmax : 0 <= INT_MAX)
    by (unfold RisingEdgeCounter.INT_MAX, signed_max; lia).
  rewrite run_snoc.
  destruct (pulses_count (Z.to_nat INT_MAX) (RisingEdgeCounter storage p))
    as (Hm & Ho & Hc); try reflexivity; simpl; try lia.
  simpl in Hc. rewrite Z2Nat.id in Hc by exact Hmax.
  set (s := run (Scenario.pulses (Z.to_nat INT_MAX))
                (RisingEdgeCounter storage p)) in *.
  destruct s as [q c cnt w u d r uo do].
  unfold mode_Waiting in Hm. simpl in *. subst uo c.
  destruct w, u, d, r; try discriminate Hm. simpl.
  unfold int_incr, wrap_signed, RisingEdgeCounter.INT_MAX,
    RisingEdgeCounter.INT_MIN, signed_max, signed_min.
  replace (2 ^ (int_bits - 1) - 1 + 1 + 2 ^ (int_bits - 1))
    with (1 * 2 ^ int_bits) by (rewrite (pow2_split int_bits Hb); lia).
  rewrite Z.mod_mul by lia. lia.
Qed.

End CounterFacts.

(** ** FSMTimer and FSMFastTimer *)

Section TimerFacts.

Variable ulong_bits : Z.

Lemma wrap_unsigned_diag (z : Z) : wrap_unsigned ulong_bits (z - z) = 0.
Proof. unfold wrap_unsigned. rewrite Z.sub_diag. apply Zmod_0_l. Qed.

(** A timer that has never been enabled is Waiting. *)
Lemma timer_disabled_waiting
    (storage : FSMTimer.t) (d start : Z) (readings : list Z) :
  let s := FSMTimer.run ulong_bits (Scenario.disabled readings)
                        (FSMTimer.FSMTimer storage d start) in
  FSMTimer.state_Waiting s = true /\ FSMTimer.state_Timing s = false
  /\ FSMTimer.duration s = d.
Proof.
  induction readings as [| r readings IH] using rev_ind.
  - repeat split.
  - unfold Scenario.disabled, FSMTimer.run in *. cbv zeta in *.
    rewrite map_app, fold_left_app. simpl.
    destruct IH as (-> & -> & ->). repeat split.
Qed.

Lemma fast_timer_disabled_waiting
    (storage : FSMFastTimer.t) (d start : Z) (readings : list Z) :
  let s := FSMFastTimer.run ulong_bits (Scenario.disabled readings)
                            (FSMFastTimer.FSMFastTimer storage d start) in
  FSMFastTimer.state_Waiting s = true /\ FSMFastTimer.state_Timing s = false
  /\ FSMFastTimer.duration s = d.
Proof.
  induction readings as [| r readings IH] using rev_ind.
  - repeat split.
  - unfold Scenario.disabled, FSMFastTimer.run in *. cbv zeta in *.
    rewrite map_app, fold_left_app. simpl.
    destruct IH as (-> & -> & ->). repeat split.
Qed.

(** C8 (as amended).  A timer of either class whose every call since
    construction has [enable] false has, after each such call, whatever
    the clock readings are, [elapsed = 0]; [TMR] is then false exactly
    when the duration is positive (with duration 0 it is true). *)
Theorem C8_disabled_timer_elapsed_zero
    (storage : FSMTimer.t) (fast_storage : FSMFastTimer.t)
    (d start : Z) (readings : list Z) (now : Z) :
  let s := FSMTimer.update ulong_bits
             (FSMTimer.run ulong_bits (Scenario.disabled readings)
                (FSMTimer.FSMTimer storage d start)) false now in
  let f := FSMFastTimer.update ulong_bits
             (FSMFastTimer.run ulong_bits (Scenario.disabled readings)
                (FSMFastTimer.FSMFastTimer fast_storage d start)) false now in
  (FSMTimer.elapsed s = 0 /\ (FSMTimer.TMR s = false <-> 0 < d))
  /\ (FSMFastTimer.elapsed f = 0 /\ (FSMFastTimer.TMR f = false <-> 0 < d)).
Proof.
  assert (Hflag : forall x, (0 >=? x) = false <-> 0 < x).
  { intros x. rewrite Z.geb_leb. apply Z.leb_gt. }
  intros s f. split.
  - destruct (timer_disabled_waiting storage d start readings)
      as (Hw & Ht & Hd).
    subst s. unfold FSMTimer.update. rewrite Hw, Ht, Hd. simpl.
    rewrite wrap_unsigned_diag. split; [reflexivity | apply Hflag].
  - destruct (fast_timer_disabled_waiting fast_storage d start readings)
      as (Hw & Ht & Hd).
    subst f. unfold FSMFastTimer.update. rewrite Hw, Ht, Hd. simpl.
    rewrite wrap_unsigned_diag. split; [reflexivity | apply Hflag].
Qed.

(** C9.  From states that agree on the mode flags, the start time and the
    duration, with the same [enable] and the same clock reading, the
    [update] of [FSMTimer] and the [update] of [FSMFastTimer] produce the
    same mode flags, start time, elapsed time, [TMR] and duration. *)
Theorem C9_timers_same_transition
    (a : FSMTimer.t) (b : FSMFastTimer.t) (enable : bool) (now : Z) :
  FSMTimer.state_Waiting a = FSMFastTimer.state_Waiting b ->
  FSMTimer.state_Timing a = FSMFastTimer.state_Timing b ->
  FSMTimer.startTime a = FSMFastTimer.startTime b ->
  FSMTimer.duration a = FSMFastTimer.duration b ->
  let a' := FSMTimer.update ulong_bits a enable now in
  let b' := FSMFastTimer.update ulong_bits b enable now in
  FSMTimer.state_Waiting a' = FSMFastTimer.state_Waiting b'
  /\ FSMTimer.state_Timing a' = FSMFastTimer.state_Timing b'
  /\ FSMTimer.startTime a' = FSMFastTimer.startTime b'
  /\ FSMTimer.elapsed a' = FSMFastTimer.elapsed b'
  /\ FSMTimer.TMR a' = FSMFastTimer.TMR b'
  /\ FSMTimer.duration a' = FSMFastTimer.duration b'.
Proof.
  intros Hw Ht Hs Hd. unfold FSMTimer.update, FSMFastTimer.update.
  cbv zeta. simpl. rewrite Hw, Ht, Hs, Hd. repeat split.
Qed.

(** The agreement of C9 carries over to any sequence of calls. *)
Lemma timers_same_run
    (calls : list (bool * Z)) (a : FSMTimer.t) (b : FSMFastTimer.t) :
  FSMTimer.state_Waiting a = FSMFastTimer.state_Waiting b ->
  FSMTimer.state_Timing a = FSMFastTimer.state_Timing b ->
  FSMTimer.startTime a = FSMFastTimer.startTime b ->
  FSMTimer.duration a = FSMFastTimer.duration b ->
  FSMTimer.elapsed a = FSMFastTimer.elapsed b ->
  FSMTimer.TMR a = FSMFastTimer.TMR b ->
  let a' := FSMTimer.run ulong_bits calls a in
  let b' := FSMFastTimer.run ulong_bits calls b in
  FSMTimer.state_Waiting a' = FSMFastTimer.state_Waiting b'
  /\ FSMTimer.state_Timing a' = FSMFastTimer.state_Timing b'
  /\ FSMTimer.startTime a' = FSMFastTimer.startTime b'
  /\ FSMTimer.elapsed a' = FSMFastTimer.elapsed b'
  /\ FSMTimer.TMR a' = FSMFastTimer.TMR b'
  /\ FSMTimer.duration a' = FSMFastTimer.duration b'.
Proof.
  revert a b. induction calls as [| [enable now] calls IH];
    intros a b Hw Ht Hs Hd He Hm.
  - simpl. repeat split; assumption.
  - cbn [FSMTimer.run FSMFastTimer.run fold_left fst snd].
    apply IH; unfold FSMTimer.update, FSMFastTimer.update; simpl;
      rewrite ?Hw, ?Ht, ?Hs, ?Hd; reflexivity.
Qed.

End TimerFacts.

(** ** The constructors *)

(** C10.  None of the three constructors assigns the threshold flag: after
    construction [CNT] (for the counter) and [TMR] (for the two timers) hold
    whatever the object's storage held before, which can be either value,
    while every other field has the value the constructor gives it,
    whatever the storage held. *)
Theorem C10_constructors_leave_flag_unassigned
    (c : RisingEdgeCounter.t) (p : Z)
    (a : FSMTimer.t) (b : FSMFastTimer.t) (d now : Z) :
  (RisingEdgeCounter.CNT (RisingEdgeCounter.RisingEdgeCounter c p)
     = RisingEdgeCounter.CNT c
   /\ (forall v : bool, exists storage,
         RisingEdgeCounter.CNT (RisingEdgeCounter.RisingEdgeCounter storage p) = v)
   /\ RisingEdgeCounter.RisingEdgeCounter c p
      = RisingEdgeCounter.mk p 0 (RisingEdgeCounter.CNT c)
                             true false false false false false)
  /\ (FSMTimer.TMR (FSMTimer.FSMTimer a d now) = FSMTimer.TMR a
      /\ (forall v : bool, exists storage,
            FSMTimer.TMR (FSMTimer.FSMTimer storage d now) = v)
      /\ FSMTimer.FSMTimer a d now
         = FSMTimer.mk d 0 (FSMTimer.TMR a) now true false)
  /\ (FSMFastTimer.TMR (FSMFastTimer.FSMFastTimer b d now) = FSMFastTimer.TMR b
      /\ (forall v : bool, exists storage,
            FSMFastTimer.TMR (FSMFastTimer.FSMFastTimer storage d now) = v)
      /\ FSMFastTimer.FSMFastTimer b d now
         = FSMFastTimer.mk d 0 (FSMFastTimer.TMR b) now true false).
Proof.
  repeat split.
  - intros v.
    exists (RisingEdgeCounter.mk 0 0 v false false false false false false).
    reflexivity.
  - intros v. exists (FSMTimer.mk 0 0 v 0 false false). reflexivity.
  - intros v. exists (FSMFastTimer.mk 0 0 v 0 false false). reflexivity.
Qed.

(** The first call of [update] assigns the flag, whatever the storage
    held. *)
Lemma first_update_assigns_CNT
    (int_bits : Z) (c c' : RisingEdgeCounter.t) (p : Z) (i u r : bool) :
  RisingEdgeCounter.update int_bits (RisingEdgeCounter.RisingEdgeCounter c p) i u r
  = RisingEdgeCounter.update int_bits (RisingEdgeCounter.RisingEdgeCounter c' p) i u r.
Proof. reflexivity. Qed.

Lemma first_update_assigns_TMR
    (ulong_bits : Z) (a a' : FSMTimer.t) (d start now : Z) (enable : bool) :
  FSMTimer.update ulong_bits (FSMTimer.FSMTimer a d start) enable now
  = FSMTimer.update ulong_bits (FSMTimer.FSMTimer a' d start) enable now.
Proof. reflexivity. Qed.

(** ** Concrete runs *)

Section ConcreteRuns.
Import RisingEdgeCounter.

(** C3 (the code departs from the claim).  The claim: [count] is never
    negative, for every sequence of calls.  The code: [update] checks
    [count > 0] before [count--] and nothing before [count++]; on a 16-bit
    [int], after 32767 presses of the increment input [count] is 32767, the
    largest [int], and the call that sees the next rising edge leaves it
    negative. *)
Theorem C3_count_negative_after_overflow (storage : t) (p : Z) :
  let before := run 16 (Scenario.pulses (Z.to_nat 32767))
                    (RisingEdgeCounter storage p) in
  let after := update 16 before true false false in
  count before = 32767 /\ count after < 0.
Proof.
  intros before after.
  destruct (pulses_count 16 (Z.to_nat 32767) (RisingEdgeCounter storage p))
    as (Hm & Ho & Hc);
    [reflexivity | reflexivity | simpl; lia | vm_compute; discriminate |].
  change (count (RisingEdgeCounter storage p) + Z.of_nat (Z.to_nat 32767))
    with 32767 in Hc.
  subst after. fold before in Hm, Ho, Hc.
  destruct before as [q c cnt w u d r uo do].
  unfold mode_Waiting in Hm. simpl in *. subst uo c.
  destruct w, u, d, r; try discriminate Hm.
  split; reflexivity.
Qed.

(** C4 (the code departs from the claim).  The claim: a rising edge of the
    increment input, the other two inputs held false, raises [count] by
    exactly 1.  The code: on a 16-bit [int], a counter that has seen 32767
    presses of the increment input and nothing else, the last call with all
    inputs false, has [count = 32767]; the call that sees the next rising
    edge does not leave [count = 32768] but a negative [count].  The other
    half of the claim holds there as well: the [m] calls after it with the
    increment input still true leave [count] as that call left it. *)
Theorem C4_rising_edge_at_INT_MAX_adds_no_1 (storage : t) (p : Z) (m : nat) :
  let low := run 16 (Scenario.pulses (Z.to_nat 32767))
                 (RisingEdgeCounter storage p) in
  let edge := update 16 low true false false in
  (mode_Waiting low = true /\ in_Up_Old low = false /\ count low = 32767)
  /\ count edge <> count low + 1
  /\ count edge < 0
  /\ count (run 16 (repeat (call true false false) m) edge) = count edge.
Proof.
  intros low edge.
  destruct (pulses_count 16 (Z.to_nat 32767) (RisingEdgeCounter storage p))
    as (Hm & Ho & Hc);
    [reflexivity | reflexivity | simpl; lia | vm_compute; discriminate |].
  change (count (RisingEdgeCounter storage p) + Z.of_nat (Z.to_nat 32767))
    with 32767 in Hc.
  fold low in Hm, Ho, Hc.
  assert (He : count edge = -32768).
  { subst edge. destruct low as [q c cnt w u d r uo do].
    unfold mode_Waiting in Hm. simpl in *. subst uo c.
    destruct w, u, d, r; try discriminate Hm. reflexivity. }
  split; [repeat split; assumption |].
  split; [rewrite He, Hc; discriminate |].
  split; [rewrite He; reflexivity |].
  apply held_input_keeps_count. reflexivity.
Qed.

(** C8 (counterexample to the claim as stated).  A timer of duration 0
    that is never enabled has [TMR] true after its first call. *)
Lemma C8_zero_duration_TMR_true :
  FSMTimer.TMR
    (FSMTimer.update 32 (FSMTimer.FSMTimer Scenario.zeroed_timer 0 7)
                     false 9) = true
  /\ FSMFastTimer.TMR
       (FSMFastTimer.update 32
          (FSMFastTimer.FSMFastTimer Scenario.zeroed_fast_timer 0 7)
          false 9) = true.
Proof. split; reflexivity. Qed.

(** The boundary of the threshold flag, preset 3: two presses leave
    [CNT] false, the third makes it true. *)
Example CNT_boundary_preset_3 :
  let two := run 16 (Scenario.pulses 2) (RisingEdgeCounter Scenario.zeroed 3) in
  let three := run 16 (Scenario.pulses 3) (RisingEdgeCounter Scenario.zeroed 3) in
  (count two = 2 /\ CNT two = false) /\ (count three = 3 /\ CNT three = true).
Proof. repeat split. Qed.

(** The counter scenario of the specification, preset 2: [count] and
    [CNT] after each of the six calls. *)
Example counter_scenario :
  let calls := [ call false false false; call true false false;
                 call true false false; call false false false;
                 call true false false; call false false true ] in
  map (fun n => let s := run 16 (firstn n calls)
                             (RisingEdgeCounter Scenario.zeroed 2) in
                (count s, CNT s))
      [1; 2; 3; 4; 5; 6]%nat
  = [ (0, false); (1, false); (1, false); (1, false); (2, true);
      (0, false) ].
Proof. reflexivity. Qed.

(** The timer scenario of the specification, duration 100, enabled at
    clock readings 0, 50, 100, 150. *)
Example timer_scenario :
  let calls := [ (true, 0); (true, 50); (true, 100); (true, 150) ] in
  map (fun n => let s := FSMTimer.run 32 (firstn n calls)
                           (FSMTimer.FSMTimer Scenario.zeroed_timer 100 0) in
                (FSMTimer.elapsed s, FSMTimer.TMR s))
      [1; 2; 3; 4]%nat
  = [ (0, false); (50, false); (100, true); (150, true) ].
Proof. reflexivity. Qed.

(** The clock wrapping between the start and the reading: the unsigned
    subtraction still gives the time that passed. *)
Example timer_clock_wraps :
  let s := FSMTimer.run 32 [ (true, 4294967290); (true, 4) ]
             (FSMTimer.FSMTimer Scenario.zeroed_timer 10 4294967290) in
  FSMTimer.elapsed s = 10 /\ FSMTimer.TMR s = true.
Proof. split; reflexivity. Qed.

(** *** The theorems with hypotheses, at concrete inputs *)

Lemma C2_witness :
  let s := run 16 Scenario.up_up_down (RisingEdgeCounter Scenario.zeroed 2) in
  mode_CountingDown s = true
  /\ (mode_Waiting (update 16 s false false true) = true
      /\ state_RST (update 16 s false false true) = false
      /\ count (update 16 s false false true) = count s
      /\ mode_Waiting (update 16 s false false false) = true).
Proof.
  intros s. split; [reflexivity |].
  apply (C2_reset_in_CountingDown_goes_to_Waiting 16 s false false).
  reflexivity.
Defined.

Lemma C5_witness :
  let s := RisingEdgeCounter Scenario.zeroed 2 in
  in_Up_Old s = false /\ in_Down_Old s = false
  /\ (let s' := update 16 s true true false in
      count s' = count s
      /\ state_Up s' = false /\ state_Down s' = false /\ state_RST s' = false
      /\ (state_Waiting s = true -> mode_Waiting s' = true)).
Proof.
  intros s. split; [reflexivity |]. split; [reflexivity |].
  apply (C5_simultaneous_edges_cancel 16 s); reflexivity.
Defined.

Lemma C6_witness :
  16 <= 16
  /\ (let s := run 16 Scenario.up_up_down
                   (RisingEdgeCounter Scenario.zeroed 2) in
      mode_CountingDown s = true
      /\ count s = 1
      /\ count (update 16 s false false true) = 1).
Proof.
  split; [lia |].
  apply (C6_reset_in_CountingDown_keeps_count 16 Scenario.zeroed 2 false false).
  lia.
Defined.

Lemma C9_witness :
  let a := FSMTimer.FSMTimer Scenario.zeroed_timer 100 0 in
  let b := FSMFastTimer.FSMFastTimer Scenario.zeroed_fast_timer 100 0 in
  FSMTimer.state_Waiting a = FSMFastTimer.state_Waiting b
  /\ FSMTimer.state_Timing a = FSMFastTimer.state_Timing b
  /\ FSMTimer.startTime a = FSMFastTimer.startTime b
  /\ FSMTimer.duration a = FSMFastTimer.duration b
  /\ (let a' := FSMTimer.update 32 a true 50 in
      let b' := FSMFastTimer.update 32 b true 50 in
      FSMTimer.state_Waiting a' = FSMFastTimer.state_Waiting b'
      /\ FSMTimer.state_Timing a' = FSMFastTimer.state_Timing b'
      /\ FSMTimer.startTime a' = FSMFastTimer.startTime b'
      /\ FSMTimer.elapsed a' = FSMFastTimer.elapsed b'
      /\ FSMTimer.TMR a' = FSMFastTimer.TMR b'
      /\ FSMTimer.duration a' = FSMFastTimer.duration b').
Proof.
  intros a b. do 4 (split; [reflexivity |]).
  apply (C9_timers_same_transition 32 a b true 50); reflexivity.
Defined.

End ConcreteRuns.

(* ================================================================== *)
(** * Part 3: further properties of the counter *)
(* ================================================================== *)

Section CounterBehaviour.
Import RisingEdgeCounter.

Variable int_bits : Z.

Local Abbreviation update := (update int_bits).
Local Abbreviation step := (step int_bits).
Local Abbreviation run := (run int_bits).
Local Abbreviation INT_MAX := (INT_MAX int_bits).

(** *** Mode flags *)

Lemma update_flags_ok (s : t) (a b c : bool) :
  Patterns.flags_ok s = true -> Patterns.flags_ok (update s a b c) = true.
Proof.
  destruct s as [p n cnt w u d r uo do]. unfold Patterns.flags_ok. simpl.
  destruct w, u, d, r, uo, do; simpl; intros H; try discriminate H;
    destruct a, b, c; reflexivity.
Qed.

Lemma run_flags_ok (calls : list inputs) (s : t) :
  Patterns.flags_ok s = true -> Patterns.flags_ok (run calls s) = true.
Proof.
  revert s. induction calls as [| i calls IH]; intros s Hs; [exact Hs |].
  rewrite (run_cons int_bits). apply IH, update_flags_ok, Hs.
Qed.

(** The flag [state_RST] is only ever set together with [count = 0]. *)
Lemma run_RST_count (calls : list inputs) (storage : t) (p : Z) :
  state_RST (run calls (RisingEdgeCounter storage p)) = true ->
  count (run calls (RisingEdgeCounter storage p)) = 0.
Proof.
  destruct calls as [| i calls _] using rev_ind; [discriminate |].
  rewrite (run_snoc int_bits).
  generalize (run calls (RisingEdgeCounter storage p)). intros s.
  unfold RisingEdgeCounter.step, RisingEdgeCounter.update. cbn [state_RST count].
  intros ->. reflexivity.
Qed.

(** X1.  In every state a counter can reach, one or two mode flags are set;
    when two are set, one of them is [state_Waiting]; [state_Up] and
    [state_Down] are never set together; a counting flag is set only when
    the saved value of its input is true; and [state_RST] is set only when
    [count] is 0. *)
Theorem mode_flags_of_reachable_states
    (storage : t) (p : Z) (calls : list inputs) :
  let s := run calls (RisingEdgeCounter storage p) in
  (1 <= flags_set s <= 2)%nat
  /\ (flags_set s = 2%nat -> state_Waiting s = true)
  /\ state_Up s && state_Down s = false
  /\ (state_Up s = true -> in_Up_Old s = true)
  /\ (state_Down s = true -> in_Down_Old s = true)
  /\ (state_RST s = true -> count s = 0).
Proof.
  intros s.
  assert (Hok : Patterns.flags_ok s = true) by (apply run_flags_ok; reflexivity).
  assert (Hr : state_RST s = true -> count s = 0) by apply run_RST_count.
  revert Hok Hr. generalize s. clear s. intros s.
  destruct s as [q n cnt w u d r uo do].
  unfold Patterns.flags_ok, flags_set. simpl.
  destruct w, u, d, r; simpl; intros Hok Hr; try discriminate Hok;
    destruct uo, do; try discriminate Hok; repeat split;
    try lia; try congruence; try exact Hr.
Qed.

(** *** Counting *)

(** After a non-empty sequence of calls, [CNT] is the comparison of the
    current [count] with the preset. *)
Lemma run_CNT (calls : list inputs) (s : t) :
  calls <> [] ->
  CNT (run calls s) = (count (run calls s) >=? preset s).
Proof.
  destruct calls as [| i calls _] using rev_ind; [congruence |].
  intros _. rewrite (run_snoc int_bits).
  unfold RisingEdgeCounter.step, RisingEdgeCounter.update. cbn [CNT count].
  now rewrite (run_preset int_bits).
Qed.

(** X2.  [n] presses of the increment input on a new counter, [n] at least 1
    and at most [INT_MAX], leave [count = n], the counter Waiting, and [CNT]
    true exactly when the preset is at most [n]. *)
Theorem presses_are_counted (storage : t) (p : Z) (n : nat) :
  (1 <= n)%nat -> Z.of_nat n <= INT_MAX ->
  let s := run (Scenario.pulses n) (RisingEdgeCounter storage p) in
  count s = Z.of_nat n
  /\ mode_Waiting s = true
  /\ (CNT s = true <-> p <= Z.of_nat n).
Proof.
  intros Hn Hmax s.
  destruct (pulses_count int_bits n (RisingEdgeCounter storage p))
    as (Hm & _ & Hc); try reflexivity; simpl; try lia.
  fold s in Hm, Hc. simpl in Hc.
  split; [exact Hc |]. split; [exact Hm |].
  unfold s. rewrite run_CNT by (destruct n; [lia | discriminate]).
  fold s. rewrite Hc. simpl. rewrite Z.geb_leb. apply Z.leb_le.
Qed.

(** *** Edges and levels *)

(** A call that sees no rising edge and no reset counts nothing, in
    whatever state the counter is, and leaves none of [state_Up],
    [state_Down], [state_RST] set. *)
Lemma no_edge_step (s : t) (in_Up in_Down : bool) :
  in_Up && negb (in_Up_Old s) = false ->
  in_Down && negb (in_Down_Old s) = false ->
  let s' := update s in_Up in_Down false in
  count s' = count s
  /\ state_Up s' = false /\ state_Down s' = false /\ state_RST s' = false.
Proof.
  destruct s as [p n cnt w u d r uo do]. simpl. intros Hu Hd.
  rewrite Hu, Hd.
  destruct w, u, d, r; repeat split.
Qed.

(** Repeating a call with the same input levels and no reset counts
    nothing. *)
Lemma held_levels_keep_count (m : nat) (s : t) (a b : bool) :
  in_Up_Old s = a -> in_Down_Old s = b ->
  count (run (repeat (call a b false) m) s) = count s.
Proof.
  revert s. induction m as [| m IH]; intros s Ha Hb; [reflexivity |].
  cbn [repeat]. rewrite (run_cons int_bits), IH by reflexivity.
  apply no_edge_step; rewrite ?Ha, ?Hb; [destruct a | destruct b]; reflexivity.
Qed.

(** X3.  The counter counts on levels never, on edges only: a call whose
    inputs have the values the previous call had, without reset, leaves
    [count] as it was, and so does every repetition of it. *)
Theorem levels_are_not_counted
    (s : t) (in_Up in_Down RST0 : bool) (m : nat) :
  let s1 := update s in_Up in_Down RST0 in
  count (run (repeat (call in_Up in_Down false) m) s1) = count s1.
Proof.
  intros s1. apply held_levels_keep_count; reflexivity.
Qed.

(** X4.  Edges are counted from Waiting only.  When [state_Waiting] is not
    set (the call right after a count, or the call that releases a reset),
    a call without reset leaves [count] as it was whatever edges it sees,
    and the edge is gone: holding the inputs afterwards counts nothing
    either. *)
Theorem edge_outside_Waiting_is_lost
    (s : t) (in_Up in_Down : bool) (m : nat) :
  state_Waiting s = false ->
  let s' := update s in_Up in_Down false in
  count s' = count s
  /\ count (run (repeat (call in_Up in_Down false) m) s') = count s.
Proof.
  intros Hw s'.
  assert (Hc : count s' = count s).
  { subst s'. destruct s as [p n cnt w u d r uo do]. simpl in *. subst w.
    destruct u, d, r, in_Up, in_Down, uo, do; reflexivity. }
  split; [exact Hc |].
  rewrite <- Hc. apply held_levels_keep_count; reflexivity.
Qed.

(** X5.  One call moves [count] by at most one step or clears it: from a
    [count] in [0, INT_MAX) the result is [count + 1], [count], [count - 1]
    or 0.  [count] rises only when the counter is Waiting and sees a rising
    edge on [in_Up] with no rising edge on [in_Down] and no reset. *)
Theorem count_moves_one_step (s : t) (in_Up in_Down RST : bool) :
  0 <= count s < INT_MAX ->
  let s' := update s in_Up in_Down RST in
  (count s' = count s + 1 \/ count s' = count s
   \/ count s' = count s - 1 \/ count s' = 0)
  /\ (count s < count s' ->
      state_Waiting s = true /\ RST = false
      /\ in_Up && negb (in_Up_Old s) = true
      /\ in_Down && negb (in_Down_Old s) = false).
Proof.
  intros Hc.
  pose proof (INT_MIN_nonpos int_bits) as Hmin.
  assert (Hi : int_incr int_bits (count s) = count s + 1)
    by (apply int_incr_exact; lia).
  destruct s as [p n cnt w u d r uo do]. simpl in *.
  destruct w, u, d, r, in_Up, in_Down, RST, uo, do; simpl; rewrite ?Hi;
    try (split; [lia | intros; repeat split; lia]);
    destruct (Z.gtb_spec n 0);
    rewrite ?(int_decr_exact int_bits) by lia;
    (split; [lia | intros; repeat split; lia]).
Qed.

(** *** Presses *)

(** A Waiting counter whose saved inputs are false, after one press of the
    increment input and after one press of the decrement input. *)
Lemma up_press_step (s : t) :
  mode_Waiting s = true -> in_Up_Old s = false -> in_Down_Old s = false ->
  0 <= count s < INT_MAX ->
  let s' := run Patterns.up_press s in
  mode_Waiting s' = true /\ in_Up_Old s' = false /\ in_Down_Old s' = false
  /\ count s' = count s + 1.
Proof.
  intros Hm Hu Hd Hc.
  pose proof (INT_MIN_nonpos int_bits) as Hmin.
  assert (Hi : int_incr int_bits (count s) = count s + 1)
    by (apply int_incr_exact; lia).
  destruct s as [p n cnt w u d r uo do]. unfold mode_Waiting in *.
  simpl in *. subst uo do.
  destruct w, u, d, r; try discriminate Hm. simpl. repeat split. exact Hi.
Qed.

Lemma down_press_step (s : t) :
  mode_Waiting s = true -> in_Up_Old s = false -> in_Down_Old s = false ->
  0 <= count s <= INT_MAX ->
  let s' := run Patterns.down_press s in
  mode_Waiting s' = true /\ in_Up_Old s' = false /\ in_Down_Old s' = false
  /\ count s' = Z.max 0 (count s - 1).
Proof.
  intros Hm Hu Hd Hc.
  destruct s as [p n cnt w u d r uo do]. unfold mode_Waiting in *.
  simpl in *. subst uo do.
  destruct w, u, d, r; try discriminate Hm. simpl. repeat split.
  destruct (Z.gtb_spec n 0).
  - rewrite (int_decr_exact int_bits) by lia. lia.
  - lia.
Qed.

(** X6.  Presses compose as bounded arithmetic.  On a counter that has just
    seen a call with all inputs false, after any history, with [count] in
    [0, INT_MAX): a press of the increment input followed by a press of the
    decrement input gives back [count]; in the other order it gives back
    [count] when [count] is positive and gives 1 when [count] is 0, the
    decrement at 0 having done nothing. *)
Theorem presses_compose
    (storage : t) (p : Z) (history : list inputs) :
  let s := update (run history (RisingEdgeCounter storage p))
                  false false false in
  0 <= count s < INT_MAX ->
  count (run (Patterns.up_press ++ Patterns.down_press) s) = count s
  /\ count (run (Patterns.down_press ++ Patterns.up_press) s)
     = Z.max 1 (count s).
Proof.
  intros s Hc.
  assert (Hr : reachable int_bits p (run history (RisingEdgeCounter storage p)))
    by (exists storage, history; reflexivity).
  destruct (low_call_settles int_bits _ (reachable_has_a_flag int_bits p _ Hr))
    as (Hm & Hu & Hd & _).
  fold s in Hm, Hu, Hd.
  rewrite !(run_app int_bits). split.
  - destruct (up_press_step s Hm Hu Hd Hc) as (Hm1 & Hu1 & Hd1 & Hc1).
    destruct (down_press_step _ Hm1 Hu1 Hd1) as (_ & _ & _ & Hc2); lia.
  - destruct (down_press_step s Hm Hu Hd) as (Hm1 & Hu1 & Hd1 & Hc1);
      [lia |].
    destruct (up_press_step _ Hm1 Hu1 Hd1) as (_ & _ & _ & Hc2); lia.
Qed.

(** X7.  The floor: any number of presses of the decrement input on a new
    counter leave [count = 0] and the counter Waiting. *)
Theorem down_presses_at_zero (storage : t) (p : Z) (n : nat) :
  let s := run (concat (repeat Patterns.down_press n))
               (RisingEdgeCounter storage p) in
  count s = 0 /\ mode_Waiting s = true.
Proof.
  intros s.
  assert (H : forall s0 : t,
             mode_Waiting s0 = true -> in_Up_Old s0 = false ->
             in_Down_Old s0 = false -> count s0 = 0 ->
             count (run (concat (repeat Patterns.down_press n)) s0) = 0
             /\ mode_Waiting (run (concat (repeat Patterns.down_press n)) s0)
                = true).
  { induction n as [| n IH]; intros s0 Hm Hu Hd Hc.
    - split; assumption.
    - cbn [repeat concat]. rewrite (run_app int_bits).
      assert (Hstep : let s1 := run Patterns.down_press s0 in
                      mode_Waiting s1 = true /\ in_Up_Old s1 = false
                      /\ in_Down_Old s1 = false /\ count s1 = 0).
      { destruct s0 as [q c cnt w u d r uo do]. unfold mode_Waiting in *.
        simpl in *. subst uo do c.
        destruct w, u, d, r; try discriminate Hm. repeat split. }
      destruct Hstep as (Hm1 & Hu1 & Hd1 & Hc1).
      apply IH; assumption. }
  apply H; reflexivity.
Qed.

(** *** Reset *)

(** X8.  Two consecutive calls with [RST] true, after any history and with
    any values on the other inputs, leave the counter Resetting and in no
    other mode, with [count = 0] and [CNT] true exactly when the preset is
    at most 0; from there a further call with [RST] true changes neither,
    and a call with [RST] false leads to Waiting with [count] still 0. *)
Theorem two_resets_settle
    (storage : t) (p : Z) (history : list inputs) (a b a' b' a'' b'' : bool) :
  let s := run (history ++ [call a b true; call a' b' true])
               (RisingEdgeCounter storage p) in
  (mode_Resetting s = true /\ count s = 0 /\ (CNT s = true <-> p <= 0))
  /\ (mode_Resetting (update s a'' b'' true) = true
      /\ count (update s a'' b'' true) = 0)
  /\ (mode_Waiting (update s a'' b'' false) = true
      /\ count (update s a'' b'' false) = 0).
Proof.
  intros s.
  assert (Hcnt : CNT s = (count s >=? p)).
  { unfold s. rewrite run_CNT by (destruct history; discriminate).
    reflexivity. }
  revert Hcnt. unfold s. rewrite (run_app int_bits).
  assert (Hf : (1 <= flags_set (run history (RisingEdgeCounter storage p)))%nat).
  { apply (reachable_has_a_flag int_bits p). exists storage, history.
    reflexivity. }
  revert Hf. generalize (run history (RisingEdgeCounter storage p)).
  intros s0 Hf.
  destruct s0 as [q n cnt w u d r uo do]. unfold flags_set in Hf.
  unfold mode_Resetting, mode_Waiting. simpl in *.
  destruct w, u, d, r; simpl in *; try lia;
    destruct a, b, a', b', uo, do; simpl; intros ->;
    (repeat split; try reflexivity; try (apply Z.geb_le); 
     try (intros H; apply Z.geb_le in H; exact H)).
Qed.

(** X16.  What a call with [RST] true does to [count], after any history:
    it clears it, except when the counter is in CountingDown (the call
    right after a counted press of the decrement input), where [count]
    keeps its value. *)
Theorem reset_effect_on_count
    (storage : t) (p : Z) (history : list inputs) (in_Up in_Down : bool) :
  let s := run history (RisingEdgeCounter storage p) in
  count (update s in_Up in_Down true)
  = if mode_CountingDown s then count s else 0.
Proof.
  intros s.
  assert (Hok : Patterns.flags_ok s = true) by (apply run_flags_ok; reflexivity).
  revert Hok. generalize s. clear s. intros s.
  destruct s as [q n cnt w u d r uo do].
  unfold Patterns.flags_ok, mode_CountingDown. simpl.
  destruct w, u, d, r; simpl; intros Hok; try discriminate Hok;
    destruct in_Up, in_Down, uo, do; reflexivity.
Qed.

End CounterBehaviour.

(* ================================================================== *)
(** * Part 4: further properties of the timers *)
(* ================================================================== *)

Section TimerBehaviour.

Variable ulong_bits : Z.

Local Abbreviation wrap := (wrap_unsigned ulong_bits).
Local Abbreviation trun := (FSMTimer.run ulong_bits).
Local Abbreviation frun := (FSMFastTimer.run ulong_bits).

(** *** The two classes *)

(** [FSMFastTimer] does on every sequence of calls what [FSMTimer] does. *)
Lemma fast_run_as_fast (calls : list (bool * Z)) (a : FSMTimer.t) :
  frun calls (Patterns.as_fast a) = Patterns.as_fast (trun calls a).
Proof.
  revert a. induction calls as [| c calls IH]; intros a; [reflexivity |].
  change (frun (c :: calls) (Patterns.as_fast a))
    with (frun calls (FSMFastTimer.update ulong_bits (Patterns.as_fast a)
                                          (fst c) (snd c))).
  change (trun (c :: calls) a)
    with (trun calls (FSMTimer.update ulong_bits a (fst c) (snd c))).
  rewrite <- IH. reflexivity.
Qed.

Lemma fast_constructed_run
    (calls : list (bool * Z)) (fs : FSMFastTimer.t) (d start : Z) :
  frun calls (FSMFastTimer.FSMFastTimer fs d start)
  = Patterns.as_fast
      (trun calls (FSMTimer.FSMTimer (Patterns.of_fast fs) d start)).
Proof. rewrite <- fast_run_as_fast. reflexivity. Qed.

(** *** Steps of [FSMTimer] *)

Lemma trun_app (xs ys : list (bool * Z)) (s : FSMTimer.t) :
  trun (xs ++ ys) s = trun ys (trun xs s).
Proof. unfold FSMTimer.run. now rewrite fold_left_app. Qed.

Lemma trun_cons (c : bool * Z) (xs : list (bool * Z)) (s : FSMTimer.t) :
  trun (c :: xs) s = trun xs (FSMTimer.update ulong_bits s (fst c) (snd c)).
Proof. reflexivity. Qed.

Lemma trun_snoc (xs : list (bool * Z)) (e : bool) (now : Z) (s : FSMTimer.t) :
  trun (xs ++ [(e, now)]) s = FSMTimer.update ulong_bits (trun xs s) e now.
Proof. now rewrite trun_app. Qed.

(** Exactly one of the two mode flags is set, from construction on, and
    [duration] keeps the constructor's argument. *)
Lemma timer_flags
    (calls : list (bool * Z)) (storage : FSMTimer.t) (d start : Z) :
  let s := trun calls (FSMTimer.FSMTimer storage d start) in
  FSMTimer.state_Waiting s = negb (FSMTimer.state_Timing s)
  /\ FSMTimer.duration s = d.
Proof.
  induction calls as [| [e now] calls IH] using rev_ind.
  - split; reflexivity.
  - cbv zeta in *. rewrite trun_snoc. destruct IH as [Hw Hd].
    unfold FSMTimer.update. simpl. rewrite Hw, Hd.
    destruct (FSMTimer.state_Timing _), e; split; reflexivity.
Qed.

Lemma timer_step_disabled (s : FSMTimer.t) (now : Z) :
  FSMTimer.state_Waiting s = negb (FSMTimer.state_Timing s) ->
  let s' := FSMTimer.update ulong_bits s false now in
  FSMTimer.state_Waiting s' = true /\ FSMTimer.state_Timing s' = false
  /\ FSMTimer.startTime s' = now /\ FSMTimer.elapsed s' = 0
  /\ FSMTimer.TMR s' = (0 >=? FSMTimer.duration s).
Proof.
  intros Hw. unfold FSMTimer.update. simpl. rewrite Hw.
  destruct (FSMTimer.state_Timing s); simpl;
    rewrite (wrap_unsigned_diag ulong_bits); repeat split.
Qed.

Lemma timer_step_enabled (s : FSMTimer.t) (now : Z) :
  FSMTimer.state_Waiting s = negb (FSMTimer.state_Timing s) ->
  let s' := FSMTimer.update ulong_bits s true now in
  FSMTimer.state_Waiting s' = false /\ FSMTimer.state_Timing s' = true
  /\ FSMTimer.startTime s' = FSMTimer.startTime s
  /\ FSMTimer.elapsed s' = wrap (now - FSMTimer.startTime s)
  /\ FSMTimer.TMR s'
     = (wrap (now - FSMTimer.startTime s) >=? FSMTimer.duration s)
  /\ FSMTimer.duration s' = FSMTimer.duration s.
Proof.
  intros Hw. unfold FSMTimer.update. simpl. rewrite Hw.
  destruct (FSMTimer.state_Timing s); simpl; repeat split.
Qed.

(** Enabled calls keep the start time. *)
Lemma timer_enabled_run (readings : list Z) (s : FSMTimer.t) :
  FSMTimer.state_Waiting s = negb (FSMTimer.state_Timing s) ->
  let s' := trun (Patterns.enabled readings) s in
  FSMTimer.state_Waiting s' = negb (FSMTimer.state_Timing s')
  /\ FSMTimer.startTime s' = FSMTimer.startTime s
  /\ FSMTimer.duration s' = FSMTimer.duration s.
Proof.
  revert s. induction readings as [| r readings IH]; intros s Hw.
  - repeat split. exact Hw.
  - cbv zeta.
    change (Patterns.enabled (r :: readings))
      with ((true, r) :: Patterns.enabled readings).
    rewrite trun_cons. cbn [fst snd].
    destruct (timer_step_enabled s r Hw) as (H1 & H2 & H3 & _ & _ & H6).
    destruct (IH (FSMTimer.update ulong_bits s true r)) as (I1 & I2 & I3).
    { rewrite H1, H2. reflexivity. }
    cbv zeta in *. rewrite I2, I3, H3, H6. repeat split. exact I1.
Qed.

(** The state after a stretch of enabled calls that follows the start time
    [t0]. *)
Lemma timer_after_enabled_stretch
    (s : FSMTimer.t) (readings : list Z) (now : Z) :
  FSMTimer.state_Waiting s = negb (FSMTimer.state_Timing s) ->
  let s' := trun (Patterns.enabled readings ++ [(true, now)]) s in
  FSMTimer.state_Waiting s' = negb (FSMTimer.state_Timing s')
  /\ FSMTimer.startTime s' = FSMTimer.startTime s
  /\ FSMTimer.duration s' = FSMTimer.duration s
  /\ FSMTimer.elapsed s' = wrap (now - FSMTimer.startTime s)
  /\ FSMTimer.TMR s'
     = (wrap (now - FSMTimer.startTime s) >=? FSMTimer.duration s).
Proof.
  intros Hw. cbv zeta. rewrite trun_snoc.
  destruct (timer_enabled_run readings s Hw) as (I1 & I2 & I3).
  destruct (timer_step_enabled _ now I1) as (H1 & H2 & H3 & H4 & H5 & H6).
  cbv zeta in *. rewrite H1, H2, H3, H4, H5, H6, I2, I3. repeat split.
Qed.

Lemma geb_true_iff (x y : Z) : (x >=? y) = true <-> y <= x.
Proof. rewrite Z.geb_leb. apply Z.leb_le. Qed.

(** *** Mode *)

Lemma timer_mode_core
    (storage : FSMTimer.t) (d start : Z) (calls : list (bool * Z))
    (enable : bool) (now : Z) :
  let s := trun (calls ++ [(enable, now)]) (FSMTimer.FSMTimer storage d start) in
  FSMTimer.state_Timing s = enable
  /\ FSMTimer.state_Waiting s = negb enable.
Proof.
  cbv zeta. rewrite trun_snoc.
  destruct (timer_flags calls storage d start) as [Hw _]. cbv zeta in Hw.
  destruct enable.
  - destruct (timer_step_enabled _ now Hw) as (H1 & H2 & _). now rewrite H1, H2.
  - destruct (timer_step_disabled _ now Hw) as (H1 & H2 & _). now rewrite H1, H2.
Qed.

(** X9.  After every call of [update], of either timer class, the mode is
    the value of [enable] in that call: Timing when it was true, Waiting
    when it was false, never both and never neither. *)
Theorem timer_mode_follows_enable
    (storage : FSMTimer.t) (fast_storage : FSMFastTimer.t) (d start : Z)
    (calls : list (bool * Z)) (enable : bool) (now : Z) :
  let s := trun (calls ++ [(enable, now)])
                (FSMTimer.FSMTimer storage d start) in
  let f := frun (calls ++ [(enable, now)])
                (FSMFastTimer.FSMFastTimer fast_storage d start) in
  (FSMTimer.state_Timing s = enable
   /\ FSMTimer.state_Waiting s = negb enable)
  /\ (FSMFastTimer.state_Timing f = enable
      /\ FSMFastTimer.state_Waiting f = negb enable).
Proof.
  intros s f. split.
  - apply timer_mode_core.
  - unfold f. rewrite fast_constructed_run.
    exact (timer_mode_core (Patterns.of_fast fast_storage) d start calls
                           enable now).
Qed.

(** *** Disabling *)

Lemma timer_disable_core
    (storage : FSMTimer.t) (d start : Z) (calls : list (bool * Z)) (now : Z) :
  let s := trun (calls ++ [(false, now)]) (FSMTimer.FSMTimer storage d start) in
  FSMTimer.elapsed s = 0 /\ FSMTimer.startTime s = now
  /\ (FSMTimer.TMR s = false <-> 0 < d).
Proof.
  cbv zeta. rewrite trun_snoc.
  destruct (timer_flags calls storage d start) as [Hw Hd]. cbv zeta in Hw, Hd.
  destruct (timer_step_disabled _ now Hw) as (_ & _ & H3 & H4 & H5).
  cbv zeta in *. rewrite H3, H4, H5, Hd. repeat split.
  - intros H. rewrite Z.geb_leb in H. now apply Z.leb_gt.
  - intros H. rewrite Z.geb_leb. now apply Z.leb_gt.
Qed.

(** X10.  A call with [enable] false resets a timer of either class,
    whatever calls came before: [elapsed] is 0, the start time is the clock
    reading of this call, and [TMR] is false exactly when the duration is
    positive. *)
Theorem disable_resets_timer
    (storage : FSMTimer.t) (fast_storage : FSMFastTimer.t) (d start : Z)
    (calls : list (bool * Z)) (now : Z) :
  let s := trun (calls ++ [(false, now)])
                (FSMTimer.FSMTimer storage d start) in
  let f := frun (calls ++ [(false, now)])
                (FSMFastTimer.FSMFastTimer fast_storage d start) in
  (FSMTimer.elapsed s = 0 /\ FSMTimer.startTime s = now
   /\ (FSMTimer.TMR s = false <-> 0 < d))
  /\ (FSMFastTimer.elapsed f = 0 /\ FSMFastTimer.startTime f = now
      /\ (FSMFastTimer.TMR f = false <-> 0 < d)).
Proof.
  intros s f. split.
  - apply timer_disable_core.
  - unfold f. rewrite fast_constructed_run.
    exact (timer_disable_core (Patterns.of_fast fast_storage) d start calls now).
Qed.

(** *** Measuring *)

Lemma timer_measure_core
    (storage : FSMTimer.t) (d start : Z) (calls : list (bool * Z))
    (t0 : Z) (readings : list Z) (now : Z) :
  let s := trun (calls ++ [(false, t0)] ++ Patterns.enabled readings
                   ++ [(true, now)])
                (FSMTimer.FSMTimer storage d start) in
  FSMTimer.elapsed s = wrap (now - t0)
  /\ (FSMTimer.TMR s = true <-> d <= wrap (now - t0)).
Proof.
  cbv zeta. rewrite app_assoc, trun_app.
  destruct (timer_flags (calls ++ [(false, t0)]) storage d start) as [Hw Hd].
  destruct (timer_disable_core storage d start calls t0) as (_ & Hs & _).
  cbv zeta in Hw, Hd, Hs.
  destruct (timer_after_enabled_stretch _ readings now Hw)
    as (_ & _ & _ & H4 & H5).
  cbv zeta in H4, H5. rewrite H4, H5, Hs, Hd.
  split; [reflexivity | apply geb_true_iff].
Qed.

(** X11.  While a timer of either class stays enabled, [elapsed] is the
    clock reading of the call minus the clock reading of the last call with
    [enable] false, as an unsigned subtraction, whatever came before that
    call; [TMR] is true exactly when this is at least the duration.  The
    readings of the enabled calls in between play no part. *)
Theorem timer_measures_from_last_disabled_call
    (storage : FSMTimer.t) (fast_storage : FSMFastTimer.t) (d start : Z)
    (calls : list (bool * Z)) (t0 : Z) (readings : list Z) (now : Z) :
  let after := calls ++ [(false, t0)] ++ Patterns.enabled readings
                 ++ [(true, now)] in
  let s := trun after (FSMTimer.FSMTimer storage d start) in
  let f := frun after (FSMFastTimer.FSMFastTimer fast_storage d start) in
  (FSMTimer.elapsed s = wrap (now - t0)
   /\ (FSMTimer.TMR s = true <-> d <= wrap (now - t0)))
  /\ (FSMFastTimer.elapsed f = wrap (now - t0)
      /\ (FSMFastTimer.TMR f = true <-> d <= wrap (now - t0))).
Proof.
  intros after s f. split.
  - apply timer_measure_core.
  - unfold f. rewrite fast_constructed_run.
    exact (timer_measure_core (Patterns.of_fast fast_storage) d start calls
                              t0 readings now).
Qed.

Lemma timer_from_construction_core
    (storage : FSMTimer.t) (d start : Z) (readings : list Z) (now : Z) :
  let s := trun (Patterns.enabled readings ++ [(true, now)])
                (FSMTimer.FSMTimer storage d start) in
  FSMTimer.elapsed s = wrap (now - start)
  /\ (FSMTimer.TMR s = true <-> d <= wrap (now - start)).
Proof.
  cbv zeta.
  destruct (timer_after_enabled_stretch
              (FSMTimer.FSMTimer storage d start) readings now eq_refl)
    as (_ & _ & _ & H4 & H5).
  cbv zeta in H4, H5. rewrite H4, H5.
  split; [reflexivity | apply geb_true_iff].
Qed.

(** X12.  A timer of either class that is enabled in every call since it
    was built measures from the clock reading the constructor took, not
    from its first enabled call: [elapsed] is the reading of the call minus
    the constructor's reading, and [TMR] is true as soon as that is at
    least the duration, on the first call already if so. *)
Theorem timer_enabled_since_construction
    (storage : FSMTimer.t) (fast_storage : FSMFastTimer.t) (d start : Z)
    (readings : list Z) (now : Z) :
  let s := trun (Patterns.enabled readings ++ [(true, now)])
                (FSMTimer.FSMTimer storage d start) in
  let f := frun (Patterns.enabled readings ++ [(true, now)])
                (FSMFastTimer.FSMFastTimer fast_storage d start) in
  (FSMTimer.elapsed s = wrap (now - start)
   /\ (FSMTimer.TMR s = true <-> d <= wrap (now - start)))
  /\ (FSMFastTimer.elapsed f = wrap (now - start)
      /\ (FSMFastTimer.TMR f = true <-> d <= wrap (now - start))).
Proof.
  intros s f. split.
  - apply timer_from_construction_core.
  - unfold f. rewrite fast_constructed_run.
    exact (timer_from_construction_core (Patterns.of_fast fast_storage) d
                                        start readings now).
Qed.

(** *** The clock wrapping around *)

(** The unsigned subtraction recovers a time span shorter than the clock's
    period from the wrapped reading. *)
Lemma wrap_recovers_span (t0 dt : Z) :
  0 <= dt < 2 ^ ulong_bits -> wrap (wrap (t0 + dt) - t0) = dt.
Proof.
  intros Hdt. unfold wrap_unsigned.
  rewrite Zminus_mod_idemp_l.
  replace (t0 + dt - t0) with dt by lia.
  apply Z.mod_small. exact Hdt.
Qed.

(** X13.  The measurement survives the clock wrapping around.  If a timer
    of either class was last disabled at clock reading [t0] and is called,
    enabled since, when [dt] ticks have passed, [dt] less than the clock's
    period, the clock showing [(t0 + dt) mod 2^ulong_bits], then [elapsed]
    is [dt] and [TMR] is true exactly when [dt] is at least the duration. *)
Theorem elapsed_exact_across_clock_wrap
    (storage : FSMTimer.t) (fast_storage : FSMFastTimer.t) (d start : Z)
    (calls : list (bool * Z)) (t0 dt : Z) (readings : list Z) :
  0 <= dt < 2 ^ ulong_bits ->
  let after := calls ++ [(false, t0)] ++ Patterns.enabled readings
                 ++ [(true, wrap (t0 + dt))] in
  let s := trun after (FSMTimer.FSMTimer storage d start) in
  let f := frun after (FSMFastTimer.FSMFastTimer fast_storage d start) in
  (FSMTimer.elapsed s = dt /\ (FSMTimer.TMR s = true <-> d <= dt))
  /\ (FSMFastTimer.elapsed f = dt /\ (FSMFastTimer.TMR f = true <-> d <= dt)).
Proof.
  intros Hdt after s f.
  assert (Hcore : forall st,
            let x := trun after (FSMTimer.FSMTimer st d start) in
            FSMTimer.elapsed x = dt /\ (FSMTimer.TMR x = true <-> d <= dt)).
  { intros st.
    pose proof (timer_measure_core st d start calls t0 readings
                                   (wrap (t0 + dt))) as H.
    cbv zeta in H. rewrite (wrap_recovers_span t0 dt Hdt) in H. exact H. }
  split.
  - apply Hcore.
  - unfold f. rewrite fast_constructed_run.
    exact (Hcore (Patterns.of_fast fast_storage)).
Qed.

(** X14.  After every call, in whatever state the object was, [elapsed] is
    a value of the unsigned type, at least 0 and below [2^ulong_bits]; so a
    timer whose duration is 0 has [TMR] true after every call, enabled or
    not. *)
Theorem elapsed_is_unsigned
    (a : FSMTimer.t) (b : FSMFastTimer.t) (enable : bool) (now : Z) :
  0 <= ulong_bits ->
  let a' := FSMTimer.update ulong_bits a enable now in
  let b' := FSMFastTimer.update ulong_bits b enable now in
  (0 <= FSMTimer.elapsed a' < 2 ^ ulong_bits
   /\ (FSMTimer.duration a <= 0 -> FSMTimer.TMR a' = true))
  /\ (0 <= FSMFastTimer.elapsed b' < 2 ^ ulong_bits
      /\ (FSMFastTimer.duration b <= 0 -> FSMFastTimer.TMR b' = true)).
Proof.
  intros Hb a' b'.
  assert (Hpos : 0 < 2 ^ ulong_bits) by (apply Z.pow_pos_nonneg; lia).
  assert (Hw : forall z, 0 <= wrap z < 2 ^ ulong_bits)
    by (intros z; apply Z.mod_pos_bound; exact Hpos).
  split.
  - subst a'. unfold FSMTimer.update. cbn [FSMTimer.elapsed FSMTimer.TMR].
    split; [apply Hw |].
    intros Hd. apply geb_true_iff.
    match goal with |- _ <= wrap ?z => specialize (Hw z) end. lia.
  - subst b'. unfold FSMFastTimer.update.
    cbn [FSMFastTimer.elapsed FSMFastTimer.TMR].
    split; [apply Hw |].
    intros Hd. apply geb_true_iff.
    match goal with |- _ <= wrap ?z => specialize (Hw z) end. lia.
Qed.

(** X15.  Once true, [TMR] stays true while the timer stays enabled and the
    clock neither goes back nor wraps: with [0 <= t0 <= t1 <= t2 <
    2^ulong_bits], [t0] the reading of the last call with [enable] false
    and [t1], [t2] readings of two later calls of the enabled stretch,
    [elapsed] is [t1 - t0] and then [t2 - t0], and [TMR] true at [t1] is
    true at [t2].  For either timer class. *)
Theorem TMR_stays_true_while_enabled
    (storage : FSMTimer.t) (fast_storage : FSMFastTimer.t) (d start : Z)
    (calls : list (bool * Z)) (t0 t1 t2 : Z) (r1 r2 : list Z) :
  0 <= t0 <= t1 -> t1 <= t2 < 2 ^ ulong_bits ->
  let upto1 := calls ++ [(false, t0)] ++ Patterns.enabled r1 ++ [(true, t1)] in
  let upto2 := calls ++ [(false, t0)]
                 ++ Patterns.enabled (r1 ++ [t1] ++ r2) ++ [(true, t2)] in
  let s1 := trun upto1 (FSMTimer.FSMTimer storage d start) in
  let s2 := trun upto2 (FSMTimer.FSMTimer storage d start) in
  let f1 := frun upto1 (FSMFastTimer.FSMFastTimer fast_storage d start) in
  let f2 := frun upto2 (FSMFastTimer.FSMFastTimer fast_storage d start) in
  (FSMTimer.elapsed s1 = t1 - t0 /\ FSMTimer.elapsed s2 = t2 - t0
   /\ (FSMTimer.TMR s1 = true -> FSMTimer.TMR s2 = true))
  /\ (FSMFastTimer.elapsed f1 = t1 - t0 /\ FSMFastTimer.elapsed f2 = t2 - t0
      /\ (FSMFastTimer.TMR f1 = true -> FSMFastTimer.TMR f2 = true)).
Proof.
  intros H01 H12 upto1 upto2 s1 s2 f1 f2.
  assert (Hw1 : wrap (t1 - t0) = t1 - t0)
    by (unfold wrap_unsigned; apply Z.mod_small; lia).
  assert (Hw2 : wrap (t2 - t0) = t2 - t0)
    by (unfold wrap_unsigned; apply Z.mod_small; lia).
  assert (Hcore : forall st,
            let x1 := trun upto1 (FSMTimer.FSMTimer st d start) in
            let x2 := trun upto2 (FSMTimer.FSMTimer st d start) in
            FSMTimer.elapsed x1 = t1 - t0 /\ FSMTimer.elapsed x2 = t2 - t0
            /\ (FSMTimer.TMR x1 = true -> FSMTimer.TMR x2 = true)).
  { intros st.
    destruct (timer_measure_core st d start calls t0 r1 t1) as [E1 T1].
    destruct (timer_measure_core st d start calls t0 (r1 ++ [t1] ++ r2) t2)
      as [E2 T2].
    cbv zeta in *. fold upto1 in E1, T1. fold upto2 in E2, T2.
    rewrite Hw1 in *. rewrite Hw2 in *.
    split; [exact E1 |]. split; [exact E2 |].
    intros H. apply T2. apply T1 in H. lia. }
  split.
  - apply Hcore.
  - unfold f1, f2. rewrite !fast_constructed_run.
    exact (Hcore (Patterns.of_fast fast_storage)).
Qed.

End TimerBehaviour.

(** ** The theorems of parts 3 and 4 that have hypotheses, at concrete
    inputs *)

Section BehaviourRuns.
Import RisingEdgeCounter.

Lemma presses_are_counted_witness :
  (1 <= 3)%nat /\ Z.of_nat 3 <= INT_MAX 16
  /\ (let s := run 16 (Scenario.pulses 3)
                   (RisingEdgeCounter Scenario.zeroed 2) in
      count s = Z.of_nat 3
      /\ mode_Waiting s = true
      /\ (CNT s = true <-> 2 <= Z.of_nat 3)).
Proof.
  split; [lia |]. split; [vm_compute; discriminate |].
  apply (presses_are_counted 16 Scenario.zeroed 2 3%nat);
    [lia | vm_compute; discriminate].
Defined.

Lemma edge_outside_Waiting_is_lost_witness :
  let s := update 16 (RisingEdgeCounter Scenario.zeroed 2) true false false in
  state_Waiting s = false
  /\ (let s' := update 16 s false true false in
      count s' = count s
      /\ count (run 16 (repeat (call false true false) 3) s') = count s).
Proof.
  intros s. split; [reflexivity |].
  apply (edge_outside_Waiting_is_lost 16 s false true 3%nat). reflexivity.
Defined.

Lemma count_moves_one_step_witness :
  let s := RisingEdgeCounter Scenario.zeroed 2 in
  0 <= count s < INT_MAX 16
  /\ (let s' := update 16 s true false false in
      (count s' = count s + 1 \/ count s' = count s
       \/ count s' = count s - 1 \/ count s' = 0)
      /\ (count s < count s' ->
          state_Waiting s = true /\ false = false
          /\ true && negb (in_Up_Old s) = true
          /\ false && negb (in_Down_Old s) = false)).
Proof.
  intros s.
  assert (H : 0 <= count s < INT_MAX 16) by (vm_compute; split; [discriminate | reflexivity]).
  split; [exact H |].
  apply (count_moves_one_step 16 s true false false). exact H.
Defined.

Lemma presses_compose_witness :
  let s := update 16 (run 16 Scenario.up_up_down
                          (RisingEdgeCounter Scenario.zeroed 2))
                  false false false in
  0 <= count s < INT_MAX 16
  /\ (count (run 16 (Patterns.up_press ++ Patterns.down_press) s) = count s
      /\ count (run 16 (Patterns.down_press ++ Patterns.up_press) s)
         = Z.max 1 (count s)).
Proof.
  intros s.
  assert (H : 0 <= count s < INT_MAX 16) by (vm_compute; split; [discriminate | reflexivity]).
  split; [exact H |].
  apply (presses_compose 16 Scenario.zeroed 2 Scenario.up_up_down). exact H.
Defined.

Lemma elapsed_exact_across_clock_wrap_witness :
  0 <= 10 < 2 ^ 32
  /\ (let after := [(false, 4294967290)]
                     ++ Patterns.enabled [4294967295]
                     ++ [(true, wrap_unsigned 32 (4294967290 + 10))] in
      let s := FSMTimer.run 32 after
                 (FSMTimer.FSMTimer Scenario.zeroed_timer 5 0) in
      let f := FSMFastTimer.run 32 after
                 (FSMFastTimer.FSMFastTimer Scenario.zeroed_fast_timer 5 0) in
      (FSMTimer.elapsed s = 10 /\ (FSMTimer.TMR s = true <-> 5 <= 10))
      /\ (FSMFastTimer.elapsed f = 10
          /\ (FSMFastTimer.TMR f = true <-> 5 <= 10))).
Proof.
  assert (H : 0 <= 10 < 2 ^ 32) by (vm_compute; split; [discriminate | reflexivity]).
  split; [exact H |].
  apply (elapsed_exact_across_clock_wrap
           32 Scenario.zeroed_timer Scenario.zeroed_fast_timer 5 0
           [] 4294967290 10 [4294967295]).
  exact H.
Defined.

Lemma elapsed_is_unsigned_witness :
  0 <= 32
  /\ (let a' := FSMTimer.update 32 Scenario.zeroed_timer true 5 in
      let b' := FSMFastTimer.update 32 Scenario.zeroed_fast_timer true 5 in
      (0 <= FSMTimer.elapsed a' < 2 ^ 32
       /\ (FSMTimer.duration Scenario.zeroed_timer <= 0 ->
           FSMTimer.TMR a' = true))
      /\ (0 <= FSMFastTimer.elapsed b' < 2 ^ 32
          /\ (FSMFastTimer.duration Scenario.zeroed_fast_timer <= 0 ->
              FSMFastTimer.TMR b' = true))).
Proof.
  split; [lia |].
  apply (elapsed_is_unsigned
           32 Scenario.zeroed_timer Scenario.zeroed_fast_timer true 5).
  lia.
Defined.

Lemma TMR_stays_true_while_enabled_witness :
  0 <= 10 <= 120 /\ 120 <= 500 < 2 ^ 32
  /\ (let upto1 := [(true, 3)] ++ [(false, 10)] ++ Patterns.enabled [50]
                     ++ [(true, 120)] in
      let upto2 := [(true, 3)] ++ [(false, 10)]
                     ++ Patterns.enabled ([50] ++ [120] ++ [300])
                     ++ [(true, 500)] in
      let s1 := FSMTimer.run 32 upto1
                  (FSMTimer.FSMTimer Scenario.zeroed_timer 100 0) in
      let s2 := FSMTimer.run 32 upto2
                  (FSMTimer.FSMTimer Scenario.zeroed_timer 100 0) in
      let f1 := FSMFastTimer.run 32 upto1
                  (FSMFastTimer.FSMFastTimer Scenario.zeroed_fast_timer 100 0) in
      let f2 := FSMFastTimer.run 32 upto2
                  (FSMFastTimer.FSMFastTimer Scenario.zeroed_fast_timer 100 0) in
      (FSMTimer.elapsed s1 = 120 - 10 /\ FSMTimer.elapsed s2 = 500 - 10
       /\ (FSMTimer.TMR s1 = true -> FSMTimer.TMR s2 = true))
      /\ (FSMFastTimer.elapsed f1 = 120 - 10
          /\ FSMFastTimer.elapsed f2 = 500 - 10
          /\ (FSMFastTimer.TMR f1 = true -> FSMFastTimer.TMR f2 = true))).
Proof.
  assert (H1 : 0 <= 10 <= 120) by lia.
  assert (H2 : 120 <= 500 < 2 ^ 32) by (vm_compute; split; [discriminate | reflexivity]).
  split; [exact H1 |]. split; [exact H2 |].
  apply (TMR_stays_true_while_enabled
           32 Scenario.zeroed_timer Scenario.zeroed_fast_timer 100 0
           [(true, 3)] 10 120 500 [50] [300]); assumption.
Defined.

End BehaviourRuns.
